(** * The OCR handler of the fertility backend: submit, then poll

    A shallow embedding of the [POST /api/ocr] handler of [src/server.js]
    (lines 43-112): the guards on the configuration and on the upload, the
    submission to Azure Document Intelligence, the polling loop and the
    extraction of the recognised text.

    The handler talks to the outside through [fetch], [sleep] and the
    Express response object.  These effects are kept in a trace of events,
    in program order; what the provider answers is given by a [World].
    Exceptions ([await] of a rejected promise, a property read on [null])
    are threaded through a small state-and-error monad, and the
    [try]/[catch] of the handler is [try_catch]. *)

From Stdlib Require Import String Ascii List ZArith Bool Arith Lia.
From Stdlib Require Import DecimalString.
Import ListNotations.

Local Open Scope string_scope.
Local Open Scope list_scope.

Set Warnings "-register-all".

(** ** JavaScript values *)

(** What [JSON.parse] can produce.  An object is the list of its own
    properties; a number is kept as an integer, the handler copies numbers
    and tests them for truthiness and does no arithmetic on them. *)
Inductive JSON : Type :=
| JNull
| JBool (b : bool)
| JNum (n : Z)
| JStr (s : string)
| JArr (items : list JSON)
| JObj (fields : list (string * JSON)).

(** A JavaScript value of the handler: a JSON value, or [undefined]. *)
Definition JSValue : Type := option JSON.

Definition undefined : JSValue := None.

(** A thrown value, kept as its [String(e)] rendering: the only thing the
    handler does with a caught value (line 110). *)
Definition Exn : Type := string.

(** The result of evaluating an expression: it throws or it has a value. *)
Definition Completion (A : Type) : Type := (Exn + A)%type.

Fixpoint lookup_field (k : string) (fields : list (string * JSON)) : JSValue :=
  match fields with
  | [] => undefined
  | (k', v) :: rest => if String.eqb k k' then Some v else lookup_field k rest
  end.

Definition null_read_error (k : string) : Exn :=
  ("TypeError: Cannot read properties of null (reading '" ++ k ++ "')")%string.

(** [v.k] for the property names the handler reads ([status],
    [analyzeResult], [content]): none of them is a property of arrays,
    strings, numbers or booleans, so the read gives [undefined] there; on
    [null] it throws. *)
Definition get_member (v : JSON) (k : string) : Completion JSValue :=
  match v with
  | JNull => inl (null_read_error k)
  | JObj fields => inr (lookup_field k fields)
  | _ => inr undefined
  end.

(** [v?.k]: [undefined] when [v] is [null] or [undefined]. *)
Definition opt_member (v : JSValue) (k : string) : JSValue :=
  match v with
  | None => undefined
  | Some JNull => undefined
  | Some (JObj fields) => lookup_field k fields
  | Some _ => undefined
  end.

(** ToBoolean. *)
Definition truthy (v : JSValue) : bool :=
  match v with
  | None => false
  | Some JNull => false
  | Some (JBool b) => b
  | Some (JNum n) => negb (Z.eqb n 0)
  | Some (JStr s) => negb (String.eqb s "")
  | Some (JArr _) => true
  | Some (JObj _) => true
  end.

(** [v || d], for a default [d] that is a JSON value. *)
Definition or_else (v : JSValue) (d : JSON) : JSON :=
  match v with
  | Some x => if truthy v then x else d
  | None => d
  end.

(** [v === 'literal']. *)
Definition strict_eq_str (v : JSValue) (lit : string) : bool :=
  match v with
  | Some (JStr s) => String.eqb s lit
  | _ => false
  end.

(** Truthiness of a string that may be [undefined] (an environment
    variable, a header value, a mime type). *)
Definition truthy_str (s : option string) : bool :=
  match s with
  | Some x => negb (String.eqb x "")
  | None => false
  end.

(** [s.replace(/\/$/, '')]: one slash at the very end is removed. *)
Fixpoint strip_trailing_slash (s : string) : string :=
  match s with
  | EmptyString => EmptyString
  | String c rest =>
      match rest with
      | EmptyString => if Ascii.eqb c "/"%char then EmptyString else s
      | String _ _ => String c (strip_trailing_slash rest)
      end
  end.

(** ** HTTP data *)

Definition Buffer : Type := list Byte.byte.

Definition Headers : Type := list (string * string).

(** A request as [fetch] is given it. *)
Record Request : Type := mkRequest {
  url : string;
  method : string;
  req_headers : Headers;
  req_body : option Buffer
}.

(** A response as [fetch] resolves to it.  [body_text] is what [.text()]
    settles to: the text of the body, or the exception of a body that
    cannot be read to its end.  [body_json] is what [.json()] settles to:
    the parsed body, or the exception of the reader or of the parser. *)
Record Response : Type := mkResponse {
  resp_status : Z;
  resp_headers : Headers;
  body_text : Completion string;
  body_json : Completion JSON
}.

Fixpoint header_values (name : string) (hs : Headers) : list string :=
  match hs with
  | [] => []
  | (n, v) :: rest =>
      if String.eqb n name then v :: header_values name rest
      else header_values name rest
  end.

(** [headers.get(name)] of node-fetch: [null] when no header has the name,
    and the values joined by a comma otherwise.  Names are in lower case,
    as Node delivers response headers. *)
Definition headers_get (hs : Headers) (name : string) : option string :=
  match header_values name hs with
  | [] => None
  | v :: vs => Some (String.concat ", " (v :: vs))
  end.

(** What the handler hands to [res.status(code).json(body)]. *)
Record HttpReply : Type := mkReply {
  code : Z;
  body : JSON
}.

(** [req.file] as multer leaves it. *)
Record UploadedFile : Type := mkFile {
  buffer : option Buffer;
  mimetype : option string
}.

Record HandlerRequest : Type := mkReq {
  file : option UploadedFile
}.

(** [process.env], read once when the module is loaded (lines 35-36). *)
Record Config : Type := mkConfig {
  AZURE_DI_ENDPOINT : option string;
  AZURE_DI_KEY : option string
}.

Definition AZURE_API_VERSION : string := "2024-11-30".

(** ** Effects *)

Inductive Event : Type :=
| EvSleep (ms : Z)
| EvFetch (r : Request)
| EvSend (r : HttpReply).

Definition Trace : Type := list Event.

(** The provider: what the submission gets, and what the status query
    number [i] (from 0) gets.  [inl e] is a [fetch] that rejects. *)
Record World : Type := mkWorld {
  submit_reply : Completion Response;
  poll_reply : nat -> Completion Response
}.

Fixpoint fetches (tr : Trace) : list Request :=
  match tr with
  | [] => []
  | EvFetch r :: rest => r :: fetches rest
  | _ :: rest => fetches rest
  end.

Fixpoint responses (tr : Trace) : list HttpReply :=
  match tr with
  | [] => []
  | EvSend r :: rest => r :: responses rest
  | _ :: rest => responses rest
  end.

Definition is_get (r : Request) : bool := String.eqb (method r) "GET".
Definition is_post (r : Request) : bool := String.eqb (method r) "POST".

(** The status queries and the submissions of a trace. *)
Definition status_queries (tr : Trace) : list Request := filter is_get (fetches tr).
Definition submissions (tr : Trace) : list Request := filter is_post (fetches tr).

(** The handler sends its requests in a fixed order: the submission, then
    the status queries. *)
Definition reply_to (w : World) (n : nat) : Completion Response :=
  match n with
  | O => submit_reply w
  | S i => poll_reply w i
  end.

(** ** The monad of the handler *)

Definition M (A : Type) : Type := World -> Trace -> Completion A * Trace.

Definition ret {A} (a : A) : M A := fun _ tr => (inr a, tr).

Definition bind {A B} (m : M A) (f : A -> M B) : M B :=
  fun w tr =>
    match m w tr with
    | (inl e, tr') => (inl e, tr')
    | (inr a, tr') => f a w tr'
    end.

Definition lift {A} (c : Completion A) : M A := fun _ tr => (c, tr).

Definition try_catch {A} (m : M A) (h : Exn -> M A) : M A :=
  fun w tr =>
    match m w tr with
    | (inl e, tr') => h e w tr'
    | (inr a, tr') => (inr a, tr')
    end.

Declare Scope js_scope.
Delimit Scope js_scope with js.
Notation "x <- c1 ;; c2" := (bind c1 (fun x => c2))
  (at level 100, c1 at next level, right associativity) : js_scope.
Notation "c1 ;; c2" := (bind c1 (fun _ => c2))
  (at level 100, right associativity) : js_scope.
Local Open Scope js_scope.

Definition sleep (ms : Z) : M unit :=
  fun _ tr => (inr tt, tr ++ [EvSleep ms]).

Definition fetch (r : Request) : M Response :=
  fun w tr => (reply_to w (length (fetches tr)), tr ++ [EvFetch r]).

Definition send (r : HttpReply) : M unit :=
  fun _ tr => (inr tt, tr ++ [EvSend r]).

(** ** The handler *)

(** How a part of the handler body ends: by a [return] of the handler
    (the response is sent), or by falling through to the next statement. *)
Inductive Flow (A : Type) : Type :=
| Return
| Next (a : A).
Arguments Return {A}.
Arguments Next {A} a.

(** The replies of the handler, in the order of the source. *)
Definition reply_missing_env : HttpReply :=
  mkReply 500 (JObj [("error", JStr "Missing Azure DI env vars")]).

Definition reply_no_file : HttpReply :=
  mkReply 400 (JObj [("error", JStr "No file uploaded")]).

Definition reply_submit_failed (status : Z) (txt : string) : HttpReply :=
  mkReply 500 (JObj [("error", JStr "Azure DI submit failed");
                     ("status", JNum status);
                     ("details", JStr txt)]).

Definition reply_missing_location : HttpReply :=
  mkReply 500 (JObj [("error", JStr "Missing Operation-Location")]).

Definition reply_failed (data : JSON) : HttpReply :=
  mkReply 500 (JObj [("error", JStr "Azure DI failed"); ("details", data)]).

Definition reply_timeout : HttpReply :=
  mkReply 504 (JObj [("error", JStr "Azure DI timeout")]).

Definition reply_text (text : JSON) : HttpReply :=
  mkReply 200 (JObj [("text", text)]).

Definition reply_exception (e : Exn) : HttpReply :=
  mkReply 500 (JObj [("error", JStr "Azure DI exception"); ("details", JStr e)]).

Definition submit_url (endpoint_var : string) : string :=
  (strip_trailing_slash endpoint_var
   ++ "/documentintelligence/documentModels/prebuilt-read:analyze"
   ++ "?api-version=" ++ AZURE_API_VERSION)%string.

Definition content_type_of (f : UploadedFile) : string :=
  match mimetype f with
  | Some m => if truthy_str (Some m) then m else "application/pdf"
  | None => "application/pdf"
  end.

Definition submit_request (endpoint_var key : string) (f : UploadedFile)
    (buf : Buffer) : Request :=
  mkRequest (submit_url endpoint_var) "POST"
    [("Ocp-Apim-Subscription-Key", key); ("Content-Type", content_type_of f)]
    (Some buf).

Definition poll_request (key opLocation : string) : Request :=
  mkRequest opLocation "GET" [("Ocp-Apim-Subscription-Key", key)] None.

(** Lines 52-79: the submission.  It falls through with [opLocation]. *)
Definition submit_phase (endpoint_var key : string) (f : UploadedFile)
    (buf : Buffer) : M (Flow string) :=
  submitResp <- fetch (submit_request endpoint_var key f buf) ;;
  if negb (Z.eqb (resp_status submitResp) 202) then
    (txt <- lift (body_text submitResp) ;;
     send (reply_submit_failed (resp_status submitResp) txt) ;;
     ret Return)
  else
    let opLocation := headers_get (resp_headers submitResp) "operation-location" in
    match opLocation with
    | Some loc =>
        if negb (truthy_str opLocation) then
          (send reply_missing_location ;; ret Return)
        else ret (Next loc)
    | None => send reply_missing_location ;; ret Return
    end.

(** Lines 83-99: the loop, with [remaining] the iterations still allowed
    ([120 - i]).  It falls through with [finalData]: the body that said
    [succeeded] after a [break], and [null] when the loop runs out. *)
Fixpoint poll_loop (key opLocation : string) (remaining : nat) : M (Flow JSON) :=
  match remaining with
  | O => ret (Next JNull)
  | S remaining' =>
      sleep 1500 ;;
      pollResp <- fetch (poll_request key opLocation) ;;
      data <- lift (body_json pollResp) ;;
      status <- lift (get_member data "status") ;;
      if strict_eq_str status "succeeded" then ret (Next data)
      else
        status' <- lift (get_member data "status") ;;
        if strict_eq_str status' "failed" then
          (send (reply_failed data) ;; ret Return)
        else poll_loop key opLocation remaining'
  end.

(** The bound of the [for] statement. *)
Definition MAX_POLLS : nat := 120.

(** Lines 101-106. *)
Definition finish (finalData : JSON) : M unit :=
  if negb (truthy (Some finalData)) then send reply_timeout
  else
    let text := or_else (opt_member (opt_member (Some finalData) "analyzeResult")
                                    "content") (JStr "") in
    send (reply_text text).

(** Lines 44-106, the body of the [try]. *)
Definition ocr_body (cfg : Config) (req : HandlerRequest) : M unit :=
  match AZURE_DI_ENDPOINT cfg, AZURE_DI_KEY cfg with
  | Some endpoint_var, Some key =>
      if negb (truthy_str (Some endpoint_var)) || negb (truthy_str (Some key)) then
        send reply_missing_env
      else
        match file req with
        | Some f =>
            match buffer f with
            | Some buf =>
                submitted <- submit_phase endpoint_var key f buf ;;
                match submitted with
                | Return => ret tt
                | Next opLocation =>
                    polled <- poll_loop key opLocation MAX_POLLS ;;
                    match polled with
                    | Return => ret tt
                    | Next finalData => finish finalData
                    end
                end
            | None => send reply_no_file
            end
        | None => send reply_no_file
        end
  | _, _ => send reply_missing_env
  end.

(** Lines 43-112. *)
Definition ocr_handler (cfg : Config) (req : HandlerRequest) : M unit :=
  try_catch (ocr_body cfg req) (fun e => send (reply_exception e)).

(** The trace of one invocation. *)
Definition run (cfg : Config) (req : HandlerRequest) (w : World) : Trace :=
  snd (ocr_handler cfg req w []).

(** ** Vocabulary of the statements *)

(** [!AZURE_DI_ENDPOINT || !AZURE_DI_KEY] is false (line 45). *)
Definition configured (cfg : Config) : bool :=
  truthy_str (AZURE_DI_ENDPOINT cfg) && truthy_str (AZURE_DI_KEY cfg).

(** [req.file?.buffer] (line 48).  A buffer is an object: it is truthy
    whatever its length. *)
Definition file_buffer (req : HandlerRequest) : option Buffer :=
  match file req with
  | Some f => buffer f
  | None => None
  end.

(** [finalData?.analyzeResult?.content] (line 105). *)
Definition result_content (finalData : JSON) : JSValue :=
  opt_member (opt_member (Some finalData) "analyzeResult") "content".

(** [finalData?.analyzeResult?.content || ''] (line 105). *)
Definition result_text (finalData : JSON) : JSON :=
  or_else (result_content finalData) (JStr "").

(** The guards of lines 45-50 let the request through: both variables
    are set and not empty, and the upload has a buffer. *)
Definition ready (cfg : Config) (req : HandlerRequest)
    (endpoint_var key : string) (f : UploadedFile) (buf : Buffer) : Prop :=
  AZURE_DI_ENDPOINT cfg = Some endpoint_var /\ endpoint_var <> ""
  /\ AZURE_DI_KEY cfg = Some key /\ key <> ""
  /\ file req = Some f /\ buffer f = Some buf.

(** The provider answers the submission with 202 and a non-empty
    [operation-location] header (lines 67-79 fall through). *)
Definition accepts (w : World) (opLocation : string) : Prop :=
  exists submitResp,
    submit_reply w = inr submitResp
    /\ resp_status submitResp = 202%Z
    /\ headers_get (resp_headers submitResp) "operation-location" = Some opLocation
    /\ opLocation <> "".

(** The body a status query resolves to, when it has one. *)
Definition json_of (r : Completion Response) : option JSON :=
  match r with
  | inr resp =>
      match body_json resp with
      | inr data => Some data
      | inl _ => None
      end
  | inl _ => None
  end.

(** The answer to a status query lets the loop go on: it has a body, the
    read of [data.status] does not throw, and the two tests of lines 92
    and 96 are false. *)
Definition is_running (r : Completion Response) : bool :=
  match json_of r with
  | Some data =>
      match get_member data "status" with
      | inr status =>
          negb (strict_eq_str status "succeeded")
          && negb (strict_eq_str status "failed")
      | inl _ => false
      end
  | None => false
  end.

(** The events of one iteration that goes on, and of [n] of them. *)
Definition poll_round (key opLocation : string) : Trace :=
  [EvSleep 1500; EvFetch (poll_request key opLocation)].

Fixpoint poll_rounds (key opLocation : string) (n : nat) : Trace :=
  match n with
  | O => []
  | S m => poll_round key opLocation ++ poll_rounds key opLocation m
  end.

(** What follows the loop (lines 101-111), for a result of the loop. *)
Definition after_poll (p : Completion (Flow JSON) * Trace) : Trace :=
  match p with
  | (inl e, tr) => tr ++ [EvSend (reply_exception e)]
  | (inr Return, tr) => tr
  | (inr (Next finalData), tr) =>
      if negb (truthy (Some finalData)) then tr ++ [EvSend reply_timeout]
      else tr ++ [EvSend (reply_text (result_text finalData))]
  end.

(** The replies the handler has in its text. *)
Inductive handler_reply : HttpReply -> Prop :=
| HR_missing_env : handler_reply reply_missing_env
| HR_no_file : handler_reply reply_no_file
| HR_submit_failed status txt : handler_reply (reply_submit_failed status txt)
| HR_missing_location : handler_reply reply_missing_location
| HR_failed data : handler_reply (reply_failed data)
| HR_timeout : handler_reply reply_timeout
| HR_text text : handler_reply (reply_text text)
| HR_exception e : handler_reply (reply_exception e).

(** ** Sample inputs *)

Definition sample_config : Config :=
  mkConfig (Some "https://di.example/") (Some "secret").

Definition sample_file : UploadedFile :=
  mkFile (Some [Byte.x25; Byte.x50; Byte.x44; Byte.x46]) (Some "image/png").

Definition sample_request : HandlerRequest := mkReq (Some sample_file).

(** The provider accepts and names the operation. *)
Definition accepted (opLocation : string) : Completion Response :=
  inr (mkResponse 202 [("operation-location", opLocation)] (inr "")
         (inl "SyntaxError: Unexpected end of JSON input")).

(** The provider answers a status query with a JSON body. *)
Definition answer (data : JSON) : Completion Response :=
  inr (mkResponse 200 [("content-type", "application/json")] (inr "") (inr data)).

Definition status_body (status : string) (more : list (string * JSON)) : JSON :=
  JObj (("status", JStr status) :: more).

Definition hello_result : JSON :=
  status_body "succeeded" [("analyzeResult", JObj [("content", JStr "Page 1: hello")])].

Definition failed_result : JSON :=
  status_body "failed" [("error", JObj [("code", JStr "InvalidRequest")])].

(** [n] answers [running], then [last] for ever. *)
Definition running_then (n : nat) (last : Completion Response) : nat -> Completion Response :=
  fun i => if Nat.ltb i n then answer (status_body "running" []) else last.

(** The scenario of the specification: [op-123], two [running], then
    [succeeded]. *)
Definition world_hello : World :=
  mkWorld (accepted "op-123") (running_then 2 (answer hello_result)).

Definition world_failing : World :=
  mkWorld (accepted "op-123") (running_then 2 (answer failed_result)).

Definition world_broken_line : World :=
  mkWorld (accepted "op-123") (running_then 2 (inl "FetchError: socket hang up")).

Definition world_never_done : World :=
  mkWorld (accepted "op-123") (running_then 0 (answer (status_body "running" []))).

(** The job is done when the 121st query would be sent. *)
Definition world_late : World :=
  mkWorld (accepted "op-123") (running_then 120 (answer hello_result)).

(** A status query is answered by the JSON text [null]. *)
Definition world_null_body : World :=
  mkWorld (accepted "op-123") (running_then 0 (answer JNull)).

(** The provider accepts with an empty [Operation-Location] header. *)
Definition world_empty_location : World :=
  mkWorld (accepted "") (running_then 0 (answer hello_result)).

(** The provider rejects the submission. *)
Definition world_rejecting : World :=
  mkWorld (inr (mkResponse 401 [] (inr "Access denied") (inl "SyntaxError")))
          (running_then 0 (answer hello_result)).

(** The recognised content is a number. *)
Definition numeric_result : JSON :=
  status_body "succeeded" [("analyzeResult", JObj [("content", JNum 42)])].

Definition world_numeric : World :=
  mkWorld (accepted "op-123") (running_then 0 (answer numeric_result)).

(** A success with no [analyzeResult]. *)
Definition world_bare_success : World :=
  mkWorld (accepted "op-123") (running_then 1 (answer (status_body "succeeded" []))).

(** An upload of no bytes, with an empty mime type. *)
Definition empty_upload : HandlerRequest := mkReq (Some (mkFile (Some []) (Some ""))).

(** An upload with no mime type at all. *)
Definition untyped_upload : HandlerRequest :=
  mkReq (Some (mkFile (Some [Byte.x25]) None)).

Definition no_upload : HandlerRequest := mkReq None.

Definition no_config : Config := mkConfig None None.

(** ** More vocabulary: time, providers that agree, the shapes of a run *)

(** The time the handler has asked to wait, in milliseconds. *)
Fixpoint slept (tr : Trace) : Z :=
  match tr with
  | [] => 0%Z
  | EvSleep ms :: rest => (ms + slept rest)%Z
  | _ :: rest => slept rest
  end.

Fixpoint ends_with_slash (s : string) : bool :=
  match s with
  | EmptyString => false
  | String c rest =>
      match rest with
      | EmptyString => Ascii.eqb c "/"%char
      | String _ _ => ends_with_slash rest
      end
  end.

(** Two answers to a status query that the loop cannot tell apart: both
    reject with the same value, or both resolve and [.json()] gives the
    same for both.  The status line and the headers may differ. *)
Definition same_json (a b : Completion Response) : Prop :=
  match a, b with
  | inl e, inl e' => e = e'
  | inr r, inr r' => body_json r = body_json r'
  | _, _ => False
  end.

(** Status query number [k] throws [e]: the [fetch] rejects, [.json()]
    rejects, or the body is [null] and the read of [data.status]
    throws. *)
Definition poll_throws (w : World) (k : nat) (e : Exn) : Prop :=
  poll_reply w k = inl e
  \/ (exists pollResp, poll_reply w k = inr pollResp /\ body_json pollResp = inl e)
  \/ (json_of (poll_reply w k) = Some JNull /\ e = null_read_error "status").

(** The first [k] status queries are answered by replies that let the
    loop go on. *)
Definition running_before (w : World) (k : nat) : Prop :=
  forall j, j < k -> is_running (poll_reply w j) = true.

(** The eight ways a run past the guards can go, for a submission [sr]
    sent with the key [key]. *)
Inductive ocr_run (w : World) (sr : Request) (key : string) : Trace -> Prop :=
| Run_submit_throws e :
    submit_reply w = inl e ->
    ocr_run w sr key [EvFetch sr; EvSend (reply_exception e)]
| Run_rejected submitResp txt :
    submit_reply w = inr submitResp ->
    resp_status submitResp <> 202%Z ->
    body_text submitResp = inr txt ->
    ocr_run w sr key
      [EvFetch sr; EvSend (reply_submit_failed (resp_status submitResp) txt)]
| Run_rejected_unreadable submitResp e :
    submit_reply w = inr submitResp ->
    resp_status submitResp <> 202%Z ->
    body_text submitResp = inl e ->
    ocr_run w sr key [EvFetch sr; EvSend (reply_exception e)]
| Run_no_location submitResp :
    submit_reply w = inr submitResp ->
    resp_status submitResp = 202%Z ->
    truthy_str (headers_get (resp_headers submitResp) "operation-location") = false ->
    ocr_run w sr key [EvFetch sr; EvSend reply_missing_location]
| Run_timeout loc :
    accepts w loc ->
    running_before w MAX_POLLS ->
    ocr_run w sr key
      (EvFetch sr :: poll_rounds key loc MAX_POLLS ++ [EvSend reply_timeout])
| Run_succeeded loc k data :
    accepts w loc -> k < MAX_POLLS -> running_before w k ->
    json_of (poll_reply w k) = Some data ->
    get_member data "status" = inr (Some (JStr "succeeded")) ->
    ocr_run w sr key
      (EvFetch sr :: poll_rounds key loc (S k)
         ++ [EvSend (reply_text (result_text data))])
| Run_failed loc k data :
    accepts w loc -> k < MAX_POLLS -> running_before w k ->
    json_of (poll_reply w k) = Some data ->
    get_member data "status" = inr (Some (JStr "failed")) ->
    ocr_run w sr key
      (EvFetch sr :: poll_rounds key loc (S k) ++ [EvSend (reply_failed data)])
| Run_poll_throws loc k e :
    accepts w loc -> k < MAX_POLLS -> running_before w k ->
    poll_throws w k e ->
    ocr_run w sr key
      (EvFetch sr :: poll_rounds key loc (S k) ++ [EvSend (reply_exception e)]).

(** The property [k] of the body of a reply, as a client reads it. *)
Definition reply_field (r : HttpReply) (k : string) : JSValue :=
  opt_member (Some (body r)) k.

(** The answer to a status query has a body, and the [status] of the body
    is ['succeeded'] or ['failed']. *)
Definition carries_terminal_status (r : Completion Response) : bool :=
  match json_of r with
  | Some data =>
      strict_eq_str (opt_member (Some data) "status") "succeeded"
      || strict_eq_str (opt_member (Some data) "status") "failed"
  | None => false
  end.

(** The job fails when the 121st query would be sent. *)
Definition world_late_failure : World :=
  mkWorld (accepted "op-123") (running_then 120 (answer failed_result)).

(** One answer [running], one body [null], and then [failed]. *)
Definition world_null_then_failed : World :=
  mkWorld (accepted "op-123")
    (fun i =>
       match i with
       | 0 => answer (status_body "running" [])
       | 1 => answer JNull
       | _ => answer failed_result
       end).

(** The provider rejects the submission and the connection breaks while
    the body of its answer is read. *)
Definition world_rejecting_unreadable : World :=
  mkWorld (inr (mkResponse 500 [] (inl "FetchError: Premature close")
                  (inl "FetchError: Premature close")))
          (running_then 0 (answer hello_result)).

(** The status queries get the bodies of [world_hello] under the status
    line of an error. *)
Definition world_http_errors : World :=
  mkWorld (accepted "op-123")
    (fun i =>
       match poll_reply world_hello i with
       | inr r => inr (mkResponse 503 [] (inr "Service Unavailable") (body_json r))
       | inl e => inl e
       end).

(** The submission does not reach the provider. *)
Definition world_unreachable : World :=
  mkWorld (inl "FetchError: getaddrinfo ENOTFOUND di.example")
          (running_then 0 (answer hello_result)).

(** The second status query is answered by a page that is not JSON. *)
Definition world_garbled : World :=
  mkWorld (accepted "op-123")
    (running_then 1
       (inr (mkResponse 502 [] (inr "<html>Bad Gateway</html>")
               (inl "FetchError: invalid json response body")))).

(** ** The other routes of [server.js] *)

(** [process.env] as the routes read it. *)
Record ProcessEnv : Type := mkEnv {
  env_ANTHROPIC_API_KEY : option string;
  env_AZURE_DI_KEY : option string;
  env_AZURE_DI_ENDPOINT : option string
}.

(** Lines 35-36: the two constants of the OCR route. *)
Definition load_config (env : ProcessEnv) : Config :=
  mkConfig (env_AZURE_DI_ENDPOINT env) (env_AZURE_DI_KEY env).

(** Lines 23-29: [GET /debug/env].  [!!v] is the truthiness of [v]. *)
Definition debug_env (env : ProcessEnv) : HttpReply :=
  mkReply 200
    (JObj [("hasAnthropicKey", JBool (truthy_str (env_ANTHROPIC_API_KEY env)));
           ("hasAzureKey", JBool (truthy_str (env_AZURE_DI_KEY env)));
           ("hasAzureEndpoint", JBool (truthy_str (env_AZURE_DI_ENDPOINT env)))]).

(** [`${n}`] for an integer [n] below 10^21 in size, as the status of an
    HTTP response is: its decimal digits. *)
Definition Number_toString (n : Z) : string :=
  NilZero.string_of_int (Z.to_int n).

(** [v?.[0]]: the first item of an array, the property ["0"] of an
    object, the first character of a string. *)
Definition opt_index0 (v : JSValue) : JSValue :=
  match v with
  | None => undefined
  | Some JNull => undefined
  | Some (JArr []) => undefined
  | Some (JArr (x :: _)) => Some x
  | Some (JObj fields) => lookup_field "0" fields
  | Some (JStr EmptyString) => undefined
  | Some (JStr (String c _)) => Some (JStr (String c EmptyString))
  | Some _ => undefined
  end.

(** [v ?? d], for a default [d] that is a JSON value. *)
Definition nullish_or (v : JSValue) (d : JSON) : JSON :=
  match v with
  | None => d
  | Some JNull => d
  | Some x => x
  end.

(** [POST /api/analyze], lines 115-218. *)
Module Analyze.

(** A thrown value: its [message] and its [String(e)] rendering. *)
Record Thrown : Type := mkThrown {
  message : string;
  rendering : string
}.

Definition Outcome (A : Type) : Type := (Thrown + A)%type.

Definition type_error (msg : string) : Thrown :=
  mkThrown msg ("TypeError: " ++ msg)%string.

(** The functions of the language that the handler calls on its data and
    that are taken as they are: [String(v)], also used for a value in a
    template, which can throw; [s.trim()]; and [JSON.stringify(v)]. *)
Record Builtins : Type := mkBuiltins {
  ToString : JSON -> Outcome string;
  trim : string -> string;
  JSON_stringify : JSON -> string
}.

Record Request : Type := mkRequest {
  url : string;
  method : string;
  headers : Headers;
  body : string
}.

(** A response as [fetch] resolves to it: [text] is what [.text()]
    settles to, [json] what [.json()] does; either can reject. *)
Record Response : Type := mkResponse {
  status : Z;
  text : Outcome string;
  json : Outcome JSON
}.

(** [response.ok]. *)
Definition ok (r : Response) : bool :=
  Z.leb 200 (status r) && Z.ltb (status r) 300.

Inductive Event : Type :=
| Log (line : string)
| LogError (label : string) (e : Thrown)
| Fetch (r : Request)
| Send (r : HttpReply).

Definition Trace : Type := list Event.

(** What the one [fetch] of the handler gets. *)
Definition World : Type := Outcome Response.

Definition A (X : Type) : Type := World -> Trace -> Outcome X * Trace.

Definition ret {X} (x : X) : A X := fun _ tr => (inr x, tr).

Definition bind {X Y} (m : A X) (f : X -> A Y) : A Y :=
  fun w tr =>
    match m w tr with
    | (inl e, tr') => (inl e, tr')
    | (inr x, tr') => f x w tr'
    end.

Definition lift {X} (c : Outcome X) : A X := fun _ tr => (c, tr).

Definition try_catch {X} (m : A X) (h : Thrown -> A X) : A X :=
  fun w tr =>
    match m w tr with
    | (inl e, tr') => h e w tr'
    | (inr x, tr') => (inr x, tr')
    end.

Declare Scope analyze_scope.
Delimit Scope analyze_scope with analyze.
Notation "x <- c1 ;; c2" := (bind c1 (fun x => c2))
  (at level 100, c1 at next level, right associativity) : analyze_scope.
Notation "c1 ;; c2" := (bind c1 (fun _ => c2))
  (at level 100, right associativity) : analyze_scope.
Local Open Scope analyze_scope.

Definition console_log (line : string) : A unit :=
  fun _ tr => (inr tt, tr ++ [Log line]).

Definition console_error (label : string) (e : Thrown) : A unit :=
  fun _ tr => (inr tt, tr ++ [LogError label e]).

Definition fetch (r : Request) : A Response :=
  fun w tr => (w, tr ++ [Fetch r]).

Definition send (r : HttpReply) : A unit :=
  fun _ tr => (inr tt, tr ++ [Send r]).

(** [const { text } = req.body]: it throws when the body is [undefined] or
    [null]. *)
Definition destructure_text (reqBody : JSValue) : Outcome JSValue :=
  match reqBody with
  | None =>
      inl (type_error
             "Cannot destructure property 'text' of 'req.body' as it is undefined.")
  | Some JNull =>
      inl (type_error
             "Cannot destructure property 'text' of 'req.body' as it is null.")
  | Some (JObj fields) => inr (lookup_field "text" fields)
  | Some _ => inr undefined
  end.

(** [String(v)] for a value that may be [undefined]. *)
Definition ToString_value (b : Builtins) (v : JSValue) : Outcome string :=
  match v with
  | Some x => ToString b x
  | None => inr "undefined"
  end.

Definition reply_no_text : HttpReply :=
  mkReply 400 (JObj [("error", JStr "No text provided")]).

Definition reply_no_key : HttpReply :=
  mkReply 400 (JObj [("error", JStr "No API key provided")]).

Definition reply_upstream (status : Z) (errorText : string) : HttpReply :=
  mkReply 500
    (JObj [("error", JStr "Failed to analyze document");
           ("details",
            JStr ("Claude API error: " ++ Number_toString status
                  ++ " - " ++ errorText)%string)]).

Definition reply_report (report : JSON) : HttpReply :=
  mkReply 200 (JObj [("success", JBool true); ("report", report)]).

(** [String(error.message || error)]. *)
Definition error_details (e : Thrown) : string :=
  if truthy_str (Some (message e)) then message e else rendering e.

Definition reply_error (e : Thrown) : HttpReply :=
  mkReply 500
    (JObj [("error", JStr "Failed to analyze document");
           ("details", JStr (error_details e))]).

Definition newline : string := String (ascii_of_nat 10) EmptyString.

(** The template of line 188. *)
Definition prompt_for (MEDICAL_PROMPT document : string) : string :=
  (MEDICAL_PROMPT ++ newline ++ newline
   ++ "Analyze the following medical document:" ++ newline ++ newline
   ++ document)%string.

(** Lines 175-192. *)
Definition claude_request (b : Builtins) (MEDICAL_PROMPT apiKey document : string)
    : Request :=
  mkRequest "https://api.anthropic.com/v1/messages" "POST"
    [("Content-Type", "application/json");
     ("x-api-key", apiKey);
     ("anthropic-version", "2023-06-01")]
    (JSON_stringify b
       (JObj [("model", JStr "claude-sonnet-4-20250514");
              ("max_tokens", JNum 4096);
              ("messages",
               JArr [JObj [("role", JStr "user");
                           ("content",
                            JStr (prompt_for MEDICAL_PROMPT document))]])])).

(** [claudeData?.content?.[0]?.text ?? ''] (line 203). *)
Definition report_of (claudeData : JSON) : JSON :=
  nullish_or
    (opt_member (opt_index0 (opt_member (Some claudeData) "content")) "text")
    (JStr "").

(** [!text || !String(text).trim()] (line 120). *)
Definition no_text (b : Builtins) (text : JSValue) : A bool :=
  if negb (truthy text) then ret true
  else
    s <- lift (ToString_value b text) ;;
    ret (negb (truthy_str (Some (trim b s)))).

(** Lines 117-210, the body of the [try].  [MEDICAL_PROMPT] is the
    constant of lines 128-171, [apiKey] is
    [process.env.ANTHROPIC_API_KEY], [reqBody] is [req.body]. *)
Definition analyze_body (b : Builtins) (MEDICAL_PROMPT : string)
    (apiKey : option string) (reqBody : JSValue) : A unit :=
  text <- lift (destructure_text reqBody) ;;
  refused <- no_text b text ;;
  if refused then send reply_no_text
  else
    match apiKey with
    | Some key =>
        if negb (truthy_str apiKey) then send reply_no_key
        else
          console_log "Calling Claude API..." ;;
          document <- lift (ToString_value b text) ;;
          claudeResponse <- fetch (claude_request b MEDICAL_PROMPT key document) ;;
          if negb (ok claudeResponse) then
            (errorText <- lift (Analyze.text claudeResponse) ;;
             send (reply_upstream (status claudeResponse) errorText))
          else
            claudeData <- lift (json claudeResponse) ;;
            let report := report_of claudeData in
            console_log "Analysis complete" ;;
            send (reply_report report)
    | None => send reply_no_key
    end.

(** Lines 115-218. *)
Definition analyze_handler (b : Builtins) (MEDICAL_PROMPT : string)
    (apiKey : option string) (reqBody : JSValue) : A unit :=
  try_catch (analyze_body b MEDICAL_PROMPT apiKey reqBody)
    (fun error =>
       console_error "Analysis error:" error ;;
       send (reply_error error)).

(** The trace of one invocation. *)
Definition run (b : Builtins) (MEDICAL_PROMPT : string)
    (apiKey : option string) (reqBody : JSValue) (w : World) : Trace :=
  snd (analyze_handler b MEDICAL_PROMPT apiKey reqBody w []).

Fixpoint fetches (tr : Trace) : list Request :=
  match tr with
  | [] => []
  | Fetch r :: rest => r :: fetches rest
  | _ :: rest => fetches rest
  end.

Fixpoint responses (tr : Trace) : list HttpReply :=
  match tr with
  | [] => []
  | Send r :: rest => r :: responses rest
  | _ :: rest => responses rest
  end.

(** The text of the request passes the test of line 120: it is truthy and
    its string has something left after [trim]. *)
Definition has_text (b : Builtins) (reqBody : JSValue) (document : string) : Prop :=
  exists text,
    destructure_text reqBody = inr text
    /\ truthy text = true
    /\ ToString_value b text = inr document
    /\ trim b document <> "".

(** Sample values: builtins that are right on strings without white
    space, a prompt, requests and answers. *)
Definition sample_builtins : Builtins :=
  mkBuiltins
    (fun v => match v with JStr s => inr s | _ => inr "[object Object]" end)
    (fun s => if String.eqb s " " then "" else s)
    (fun _ => "{}").

Definition sample_prompt : string := "ROLE: You are an Expert Assistant".

Definition sample_body : JSValue := Some (JObj [("text", JStr "TSH 2.1")]).

Definition claude_says (report : JSON) : World :=
  inr (mkResponse 200 (inr "")
         (inr (JObj [("content",
                      JArr [JObj [("type", JStr "text"); ("text", report)];
                            JObj [("type", JStr "text"); ("text", JStr "more")]])]))).

Definition claude_overloaded : World :=
  inr (mkResponse 529 (inr "overloaded_error")
         (inl (mkThrown "invalid json" "FetchError: invalid json"))).

(** The model answers 502 and the connection breaks while the body is
    read. *)
Definition claude_cut_off : World :=
  inr (mkResponse 502 (inl (mkThrown "Premature close" "FetchError: Premature close"))
         (inl (mkThrown "Premature close" "FetchError: Premature close"))).

Definition claude_unreachable : World :=
  inl (mkThrown "request to https://api.anthropic.com/v1/messages failed"
         "FetchError: request to https://api.anthropic.com/v1/messages failed").

End Analyze.

(** ** Traces *)

Lemma fetches_app (a b : Trace) : fetches (a ++ b) = fetches a ++ fetches b.
Proof.
  induction a as [|ev a IH]; [reflexivity|].
  destruct ev; simpl; rewrite IH; reflexivity.
Qed.

Lemma responses_app (a b : Trace) : responses (a ++ b) = responses a ++ responses b.
Proof.
  induction a as [|ev a IH]; [reflexivity|].
  destruct ev; simpl; rewrite IH; reflexivity.
Qed.

Lemma status_queries_app (a b : Trace) :
  status_queries (a ++ b) = status_queries a ++ status_queries b.
Proof. unfold status_queries. rewrite fetches_app. apply filter_app. Qed.

Lemma submissions_app (a b : Trace) :
  submissions (a ++ b) = submissions a ++ submissions b.
Proof. unfold submissions. rewrite fetches_app. apply filter_app. Qed.

Lemma fetches_poll_rounds key loc n :
  fetches (poll_rounds key loc n) = repeat (poll_request key loc) n.
Proof.
  induction n as [|n IH]; [reflexivity|].
  simpl. rewrite IH. reflexivity.
Qed.

Lemma responses_poll_rounds key loc n : responses (poll_rounds key loc n) = [].
Proof. induction n as [|n IH]; [reflexivity|]. simpl. exact IH. Qed.

Lemma status_queries_poll_rounds key loc n :
  status_queries (poll_rounds key loc n) = repeat (poll_request key loc) n.
Proof.
  unfold status_queries. rewrite fetches_poll_rounds.
  induction n as [|n IH]; [reflexivity|].
  simpl. rewrite IH. reflexivity.
Qed.

Lemma submissions_poll_rounds key loc n : submissions (poll_rounds key loc n) = [].
Proof.
  unfold submissions. rewrite fetches_poll_rounds.
  induction n as [|n IH]; [reflexivity|].
  simpl. exact IH.
Qed.

(** ** The loop *)

Section Loop.

Variables (key loc : string) (w : World).

(** One iteration, read off the source: the five ways it can end. *)
Lemma poll_loop_S (n i : nat) (tr : Trace) :
  length (fetches tr) = S i ->
  poll_loop key loc (S n) w tr =
    match poll_reply w i with
    | inl e => (inl e, tr ++ poll_round key loc)
    | inr pollResp =>
        match body_json pollResp with
        | inl e => (inl e, tr ++ poll_round key loc)
        | inr data =>
            match get_member data "status" with
            | inl e => (inl e, tr ++ poll_round key loc)
            | inr status =>
                if strict_eq_str status "succeeded" then
                  (inr (Next data), tr ++ poll_round key loc)
                else if strict_eq_str status "failed" then
                  (inr Return, (tr ++ poll_round key loc) ++ [EvSend (reply_failed data)])
                else poll_loop key loc n w (tr ++ poll_round key loc)
            end
        end
    end.
Proof.
  intros Hlen.
  cbn [poll_loop]. unfold bind at 1. unfold sleep at 1.
  unfold bind at 1. unfold fetch at 1.
  rewrite fetches_app. cbn [fetches]. rewrite app_nil_r, Hlen. cbn [reply_to].
  rewrite <- app_assoc. change ([EvSleep 1500] ++ [EvFetch (poll_request key loc)])
    with (poll_round key loc).
  destruct (poll_reply w i) as [e|pollResp]; [reflexivity|].
  unfold bind at 1. unfold lift at 1.
  destruct (body_json pollResp) as [e|data]; [reflexivity|].
  unfold bind at 1. unfold lift at 1.
  destruct (get_member data "status") as [e|status]; [reflexivity|].
  destruct (strict_eq_str status "succeeded"); [reflexivity|].
  unfold bind at 1. unfold lift at 1.
  destruct (strict_eq_str status "failed"); reflexivity.
Qed.

Lemma fetches_after_round (i : nat) (tr : Trace) :
  length (fetches tr) = S i ->
  length (fetches (tr ++ poll_round key loc)) = S (S i).
Proof.
  intros H. rewrite fetches_app, length_app, H. simpl. lia.
Qed.

Lemma poll_loop_running_step (n i : nat) (tr : Trace) :
  length (fetches tr) = S i ->
  is_running (poll_reply w i) = true ->
  poll_loop key loc (S n) w tr = poll_loop key loc n w (tr ++ poll_round key loc).
Proof.
  intros Hlen Hrun. rewrite (poll_loop_S n i tr Hlen).
  unfold is_running, json_of in Hrun.
  destruct (poll_reply w i) as [e|pollResp]; [discriminate|].
  destruct (body_json pollResp) as [e|data]; [discriminate|].
  destruct (get_member data "status") as [e|status]; [discriminate|].
  destruct (strict_eq_str status "succeeded"); [discriminate|].
  destruct (strict_eq_str status "failed"); [discriminate|].
  reflexivity.
Qed.

(** [k] answers that let the loop go on use [k] iterations and nothing
    else. *)
Lemma poll_loop_running_prefix (k n : nat) :
  forall (i : nat) (tr : Trace),
    length (fetches tr) = S i ->
    (forall j, j < k -> is_running (poll_reply w (i + j)) = true) ->
    poll_loop key loc (k + n) w tr =
      poll_loop key loc n w (tr ++ poll_rounds key loc k).
Proof.
  induction k as [|k IH]; intros i tr Hlen Hrun.
  - simpl. rewrite app_nil_r. reflexivity.
  - change (S k + n) with (S (k + n)).
    rewrite (poll_loop_running_step (k + n) i tr Hlen).
    2:{ specialize (Hrun 0). rewrite Nat.add_0_r in Hrun. apply Hrun. lia. }
    rewrite (IH (S i) (tr ++ poll_round key loc)).
    + rewrite <- app_assoc. reflexivity.
    + apply fetches_after_round. exact Hlen.
    + intros j Hj. replace (S i + j) with (i + S j) by lia. apply Hrun. lia.
Qed.

(** The loop for an arbitrary provider: some [m] iterations, all but the
    last of which were answered by a reply that lets the loop go on, and
    then at most one response, sent exactly when the handler returns from
    inside the loop. *)
Lemma poll_loop_shape (n : nat) :
  forall (i : nat) (tr : Trace),
    length (fetches tr) = S i ->
    exists (m : nat) (res : Completion (Flow JSON)) (tail : Trace),
      poll_loop key loc n w tr = (res, tr ++ poll_rounds key loc m ++ tail)
      /\ m <= n
      /\ (forall j, S j < m -> is_running (poll_reply w (i + j)) = true)
      /\ ((res = inr Return /\ exists data, tail = [EvSend (reply_failed data)])
          \/ (res <> inr Return /\ tail = [])).
Proof.
  induction n as [|n IH]; intros i tr Hlen.
  - exists 0, (inr (Next JNull)), []. simpl. rewrite app_nil_r.
    repeat split; try lia. right. split; [discriminate|reflexivity].
  - destruct (is_running (poll_reply w i)) eqn:Hrun.
    + rewrite (poll_loop_running_step n i tr Hlen Hrun).
      destruct (IH (S i) (tr ++ poll_round key loc) (fetches_after_round i tr Hlen))
        as (m & res & tail & Heq & Hle & Hpre & Htail).
      exists (S m), res, tail. rewrite Heq. repeat split.
      * rewrite <- app_assoc. reflexivity.
      * lia.
      * intros j Hj. destruct j as [|j].
        -- rewrite Nat.add_0_r. exact Hrun.
        -- replace (i + S j) with (S i + j) by lia. apply Hpre. lia.
      * exact Htail.
    + rewrite (poll_loop_S n i tr Hlen).
      assert (Hone : poll_rounds key loc 1 = poll_round key loc)
        by (cbn [poll_rounds]; apply app_nil_r).
      unfold is_running, json_of in Hrun.
      destruct (poll_reply w i) as [e|pollResp].
      { exists 1, (inl e), []. rewrite Hone, app_nil_r. repeat split; try lia.
        right. split; [discriminate|reflexivity]. }
      destruct (body_json pollResp) as [e|data].
      { exists 1, (inl e), []. rewrite Hone, app_nil_r. repeat split; try lia.
        right. split; [discriminate|reflexivity]. }
      destruct (get_member data "status") as [e|status].
      { exists 1, (inl e), []. rewrite Hone, app_nil_r. repeat split; try lia.
        right. split; [discriminate|reflexivity]. }
      destruct (strict_eq_str status "succeeded").
      { exists 1, (inr (Next data)), []. rewrite Hone, app_nil_r.
        repeat split; try lia. right. split; [discriminate|reflexivity]. }
      destruct (strict_eq_str status "failed"); [|discriminate].
      exists 1, (inr Return), [EvSend (reply_failed data)].
      rewrite Hone, <- app_assoc. repeat split; try lia.
      left. split; [reflexivity|]. exists data. reflexivity.
Qed.

End Loop.

Lemma poll_rounds_snoc key loc n :
  poll_rounds key loc (S n) = poll_rounds key loc n ++ poll_round key loc.
Proof.
  induction n as [|n IH].
  - cbn [poll_rounds]. rewrite app_nil_r. reflexivity.
  - cbn [poll_rounds] in *. rewrite <- app_assoc. f_equal. exact IH.
Qed.

(** ** The handler *)

Lemma truthy_str_Some (s : string) : s <> "" -> truthy_str (Some s) = true.
Proof.
  intros H. unfold truthy_str. destruct (String.eqb_spec s ""); [contradiction|reflexivity].
Qed.

(** A value with a [status] is an object, hence truthy. *)
Lemma status_makes_object (data : JSON) (v : JSON) :
  get_member data "status" = inr (Some v) -> truthy (Some data) = true.
Proof. destruct data; simpl; intros H; try discriminate; reflexivity. Qed.

Lemma strict_eq_str_true (v : JSValue) (lit : string) :
  strict_eq_str v lit = true <-> v = Some (JStr lit).
Proof.
  unfold strict_eq_str. split.
  - destruct v as [[| | |s| |]|]; try discriminate.
    intros H. apply String.eqb_eq in H. subst. reflexivity.
  - intros ->. apply String.eqb_refl.
Qed.

Section Handler.

Variables (cfg : Config) (req : HandlerRequest) (w : World).

Lemma run_not_configured :
  configured cfg = false -> run cfg req w = [EvSend reply_missing_env].
Proof.
  unfold configured, run, ocr_handler, try_catch, ocr_body.
  destruct (AZURE_DI_ENDPOINT cfg) as [ep|]; destruct (AZURE_DI_KEY cfg) as [k|];
    try reflexivity.
  intros H. rewrite <- negb_andb, H. reflexivity.
Qed.

Lemma run_no_buffer :
  configured cfg = true -> file_buffer req = None ->
  run cfg req w = [EvSend reply_no_file].
Proof.
  unfold configured, file_buffer. intros Hc Hb.
  apply andb_prop in Hc. destruct Hc as [He Hk].
  unfold run, ocr_handler, try_catch, ocr_body.
  destruct (AZURE_DI_ENDPOINT cfg) as [ep|]; [|discriminate].
  destruct (AZURE_DI_KEY cfg) as [k|]; [|discriminate].
  rewrite He, Hk. cbn [negb orb].
  destruct (file req) as [f|]; [|reflexivity].
  rewrite Hb. reflexivity.
Qed.

(** Every pair of a configuration and a request is stopped by one of the
    two guards or passes both. *)
Lemma guards_cases :
  configured cfg = false
  \/ (configured cfg = true /\ file_buffer req = None)
  \/ (exists endpoint_var key f buf, ready cfg req endpoint_var key f buf).
Proof.
  destruct (configured cfg) eqn:Hc; [|left; reflexivity]. right.
  destruct (file_buffer req) as [buf|] eqn:Hb; [|left; split; reflexivity].
  right. unfold configured in Hc. unfold file_buffer in Hb.
  destruct (AZURE_DI_ENDPOINT cfg) as [ep|] eqn:He; [|discriminate].
  destruct (AZURE_DI_KEY cfg) as [k|] eqn:Hk;
    [|rewrite andb_false_r in Hc; discriminate].
  destruct (file req) as [f|] eqn:Hf; [|discriminate].
  apply andb_prop in Hc. destruct Hc as [Hc1 Hc2].
  exists ep, k, f, buf. unfold ready.
  split; [exact He|]. split; [intros ->; discriminate|].
  split; [exact Hk|]. split; [intros ->; discriminate|].
  split; [exact Hf|exact Hb].
Qed.

Variables (endpoint_var key : string) (f : UploadedFile) (buf : Buffer).

Lemma submit_phase_eq (tr : Trace) :
  fetches tr = [] ->
  submit_phase endpoint_var key f buf w tr =
    let sent := tr ++ [EvFetch (submit_request endpoint_var key f buf)] in
    match submit_reply w with
    | inl e => (inl e, sent)
    | inr submitResp =>
        if negb (Z.eqb (resp_status submitResp) 202) then
          match body_text submitResp with
          | inl e => (inl e, sent)
          | inr txt =>
              (inr Return,
               sent ++ [EvSend (reply_submit_failed (resp_status submitResp) txt)])
          end
        else
          match headers_get (resp_headers submitResp) "operation-location" with
          | Some opLocation =>
              if negb (truthy_str (Some opLocation)) then
                (inr Return, sent ++ [EvSend reply_missing_location])
              else (inr (Next opLocation), sent)
          | None => (inr Return, sent ++ [EvSend reply_missing_location])
          end
    end.
Proof.
  intros Hnone. unfold submit_phase, bind, fetch, send, ret, lift.
  rewrite Hnone. cbn [length reply_to].
  destruct (submit_reply w) as [e|submitResp]; [reflexivity|].
  destruct (negb (Z.eqb (resp_status submitResp) 202)).
  { destruct (body_text submitResp); reflexivity. }
  destruct (headers_get (resp_headers submitResp) "operation-location") as [l|];
    [|reflexivity].
  destruct (negb (truthy_str (Some l))); reflexivity.
Qed.

Hypothesis Hready : ready cfg req endpoint_var key f buf.

(** Past the guards: the submission, and then the loop and what follows
    it. *)
Lemma run_ready :
  run cfg req w =
    match submit_phase endpoint_var key f buf w [] with
    | (inl e, tr) => tr ++ [EvSend (reply_exception e)]
    | (inr Return, tr) => tr
    | (inr (Next opLocation), tr) =>
        after_poll (poll_loop key opLocation MAX_POLLS w tr)
    end.
Proof.
  destruct Hready as (He & He' & Hk & Hk' & Hf & Hb).
  unfold run, ocr_handler, try_catch, ocr_body.
  rewrite He, Hk, Hf, Hb, (truthy_str_Some _ He'), (truthy_str_Some _ Hk').
  cbn [negb orb]. unfold bind at 1.
  destruct (submit_phase endpoint_var key f buf w []) as [[e|[|l]] tr];
    try reflexivity.
  unfold bind at 1.
  destruct (poll_loop key l MAX_POLLS w tr) as [[e|[|d]] tr']; try reflexivity.
  unfold after_poll, finish, send.
  destruct (negb (truthy (Some d))); reflexivity.
Qed.

Variable loc : string.
Hypothesis Haccepts : accepts w loc.

Lemma run_accepted :
  run cfg req w =
    after_poll (poll_loop key loc MAX_POLLS w
                  [EvFetch (submit_request endpoint_var key f buf)]).
Proof.
  rewrite run_ready. rewrite (submit_phase_eq [] eq_refl).
  destruct Haccepts as (sresp & Hs & Hst & Hl & Hl').
  cbv zeta. rewrite Hs, Hst, Hl, (truthy_str_Some _ Hl'). reflexivity.
Qed.

(** After [k] answers that let the loop go on, the handler is about to
    send status query number [k]. *)
Lemma run_after_running (k : nat) :
  k < MAX_POLLS ->
  (forall j, j < k -> is_running (poll_reply w j) = true) ->
  run cfg req w =
    after_poll (poll_loop key loc (S (MAX_POLLS - S k)) w
                  (EvFetch (submit_request endpoint_var key f buf)
                     :: poll_rounds key loc k))
  /\ length (fetches (EvFetch (submit_request endpoint_var key f buf)
                        :: poll_rounds key loc k)) = S k.
Proof.
  intros Hk Hrun. split.
  - rewrite run_accepted.
    replace MAX_POLLS with (k + S (MAX_POLLS - S k)) at 1 by lia.
    rewrite (poll_loop_running_prefix key loc w k (S (MAX_POLLS - S k)) 0
               [EvFetch (submit_request endpoint_var key f buf)] eq_refl Hrun).
    reflexivity.
  - cbn [fetches length]. rewrite fetches_poll_rounds, repeat_length. reflexivity.
Qed.

End Handler.

(** ** Runs past the guards *)

(** [data.status] has a value exactly when [data] is not [null]. *)
Lemma get_member_defined (data : JSON) (k : string) :
  data <> JNull <-> exists v, get_member data k = inr v.
Proof.
  split.
  - destruct data; intros H; try contradiction; simpl; eauto.
  - intros [v H] ->. discriminate.
Qed.

Lemma queries_of_shape (sr : Request) key loc (n : nat) (tail : Trace) :
  is_get sr = false -> fetches tail = [] ->
  status_queries (EvFetch sr :: poll_rounds key loc n ++ tail)
    = repeat (poll_request key loc) n.
Proof.
  intros Hsr Htail.
  change (EvFetch sr :: poll_rounds key loc n ++ tail)
    with ([EvFetch sr] ++ poll_rounds key loc n ++ tail).
  rewrite !status_queries_app, status_queries_poll_rounds.
  unfold status_queries at 2. rewrite Htail. cbn [filter]. rewrite app_nil_r.
  unfold status_queries. cbn [fetches filter]. rewrite Hsr. reflexivity.
Qed.

Lemma submissions_of_shape (sr : Request) key loc (n : nat) (tail : Trace) :
  is_post sr = true -> fetches tail = [] ->
  submissions (EvFetch sr :: poll_rounds key loc n ++ tail) = [sr].
Proof.
  intros Hsr Htail.
  change (EvFetch sr :: poll_rounds key loc n ++ tail)
    with ([EvFetch sr] ++ poll_rounds key loc n ++ tail).
  rewrite !submissions_app, submissions_poll_rounds.
  unfold submissions at 2. rewrite Htail. cbn [filter app].
  unfold submissions. cbn [fetches filter]. rewrite Hsr. reflexivity.
Qed.

Lemma responses_of_shape (sr : Request) key loc (n : nat) (r : HttpReply) :
  responses (EvFetch sr :: poll_rounds key loc n ++ [EvSend r]) = [r].
Proof.
  cbn [responses]. rewrite responses_app, responses_poll_rounds. reflexivity.
Qed.

Section Accepted.

Variables (cfg : Config) (req : HandlerRequest) (w : World).
Variables (endpoint_var key : string) (f : UploadedFile) (buf : Buffer).
Variable loc : string.
Hypothesis Hready : ready cfg req endpoint_var key f buf.
Hypothesis Haccepts : accepts w loc.

Let sr : Request := submit_request endpoint_var key f buf.

Lemma shape_snoc (k : nat) (tail : Trace) :
  ((EvFetch sr :: poll_rounds key loc k) ++ poll_round key loc) ++ tail
    = EvFetch sr :: poll_rounds key loc (S k) ++ tail.
Proof.
  rewrite poll_rounds_snoc. cbn [app]. rewrite <- !app_assoc. reflexivity.
Qed.

Variable k : nat.
Hypothesis Hbudget : k < MAX_POLLS.
Hypothesis Hprefix : forall j, j < k -> is_running (poll_reply w j) = true.

(** Status query number [k] is answered by [succeeded]. *)
Lemma run_succeeded (data : JSON) :
  json_of (poll_reply w k) = Some data ->
  get_member data "status" = inr (Some (JStr "succeeded")) ->
  run cfg req w =
    EvFetch sr :: poll_rounds key loc (S k)
      ++ [EvSend (reply_text (result_text data))].
Proof.
  intros Hjson Hstatus.
  destruct (run_after_running cfg req w endpoint_var key f buf Hready loc Haccepts
              k Hbudget Hprefix) as [Hrun Hlen].
  rewrite Hrun, (poll_loop_S key loc w _ k _ Hlen).
  unfold json_of in Hjson.
  destruct (poll_reply w k) as [e|pollResp]; [discriminate|].
  destruct (body_json pollResp) as [e|d]; [discriminate|].
  injection Hjson as ->. rewrite Hstatus. cbn [strict_eq_str].
  rewrite String.eqb_refl. unfold after_poll.
  rewrite (status_makes_object _ _ Hstatus). cbn [negb].
  rewrite <- (app_nil_r (_ ++ poll_round key loc)), <- app_assoc.
  rewrite shape_snoc. reflexivity.
Qed.

(** Status query number [k] is answered by [failed]. *)
Lemma run_failed (data : JSON) :
  json_of (poll_reply w k) = Some data ->
  get_member data "status" = inr (Some (JStr "failed")) ->
  run cfg req w =
    EvFetch sr :: poll_rounds key loc (S k) ++ [EvSend (reply_failed data)].
Proof.
  intros Hjson Hstatus.
  destruct (run_after_running cfg req w endpoint_var key f buf Hready loc Haccepts
              k Hbudget Hprefix) as [Hrun Hlen].
  rewrite Hrun, (poll_loop_S key loc w _ k _ Hlen).
  unfold json_of in Hjson.
  destruct (poll_reply w k) as [e|pollResp]; [discriminate|].
  destruct (body_json pollResp) as [e|d]; [discriminate|].
  injection Hjson as ->. rewrite Hstatus. cbn [strict_eq_str String.eqb Ascii.eqb Bool.eqb].
  unfold after_poll. apply shape_snoc.
Qed.

(** Status query number [k] throws: [fetch] rejects, the body is not
    JSON, or the body is [null]. *)
Lemma run_thrown (e : Exn) :
  poll_reply w k = inl e
  \/ (exists pollResp, poll_reply w k = inr pollResp /\ body_json pollResp = inl e)
  \/ (json_of (poll_reply w k) = Some JNull /\ e = null_read_error "status") ->
  run cfg req w =
    EvFetch sr :: poll_rounds key loc (S k) ++ [EvSend (reply_exception e)].
Proof.
  intros Hcase.
  destruct (run_after_running cfg req w endpoint_var key f buf Hready loc Haccepts
              k Hbudget Hprefix) as [Hrun Hlen].
  rewrite Hrun, (poll_loop_S key loc w _ k _ Hlen).
  destruct Hcase as [H|[(pollResp & H & Hb)|[H ->]]].
  - rewrite H. unfold after_poll.
    apply shape_snoc.
  - rewrite H, Hb. unfold after_poll.
    apply shape_snoc.
  - unfold json_of in H.
    destruct (poll_reply w k) as [e|pollResp]; [discriminate|].
    destruct (body_json pollResp) as [e|d]; [discriminate|].
    injection H as ->. cbn [get_member]. unfold after_poll.
    apply shape_snoc.
Qed.

End Accepted.

(** ** Every run *)

Ltac shape_done :=
  split; [reflexivity|];
  split; [constructor|];
  split; [first [assumption | apply Nat.le_0_l]|];
  first [assumption | intros; lia].

(** Past the guards, for an arbitrary provider: the submission, some [m]
    status queries of which all but the last were answered by a reply that
    lets the loop go on, and one response, which is the last event. *)
Lemma run_ready_shape cfg req w endpoint_var key f buf :
  ready cfg req endpoint_var key f buf ->
  exists (loc : string) (m : nat) (reply : HttpReply),
    run cfg req w =
      EvFetch (submit_request endpoint_var key f buf)
        :: poll_rounds key loc m ++ [EvSend reply]
    /\ handler_reply reply
    /\ m <= MAX_POLLS
    /\ (forall j, S j < m -> is_running (poll_reply w j) = true).
Proof.
  intros Hready.
  rewrite (run_ready cfg req w endpoint_var key f buf Hready).
  rewrite (submit_phase_eq w endpoint_var key f buf [] eq_refl). cbv zeta.
  destruct (submit_reply w) as [e|submitResp].
  { exists "", 0, (reply_exception e). shape_done. }
  destruct (negb (Z.eqb (resp_status submitResp) 202)).
  { destruct (body_text submitResp) as [e|txt].
    - exists "", 0, (reply_exception e). shape_done.
    - exists "", 0, (reply_submit_failed (resp_status submitResp) txt). shape_done. }
  destruct (headers_get (resp_headers submitResp) "operation-location") as [loc|].
  2:{ exists "", 0, reply_missing_location. shape_done. }
  destruct (negb (truthy_str (Some loc))).
  { exists "", 0, reply_missing_location. shape_done. }
  destruct (poll_loop_shape key loc w MAX_POLLS 0
              ([] ++ [EvFetch (submit_request endpoint_var key f buf)]) eq_refl)
    as (m & res & tail & Heq & Hle & Hpre & Htail).
  rewrite Heq. cbn [app Nat.add] in *. unfold after_poll.
  destruct Htail as [[-> (data & ->)]|[Hres ->]].
  - exists loc, m, (reply_failed data). shape_done.
  - rewrite app_nil_r. destruct res as [e|[|d]].
    + exists loc, m, (reply_exception e). shape_done.
    + contradiction Hres. reflexivity.
    + destruct (negb (truthy (Some d))).
      * exists loc, m, reply_timeout. shape_done.
      * exists loc, m, (reply_text (result_text d)).
        shape_done.
Qed.

(** ** The claims *)

Ltac prove_ready :=
  unfold ready;
  repeat (split; [first [reflexivity | discriminate]|]);
  first [reflexivity | discriminate].

Ltac prove_accepts :=
  eexists; split; [reflexivity|]; split; [reflexivity|];
  split; [reflexivity|discriminate].

Ltac prove_prefix :=
  let j := fresh "j" in
  let Hj := fresh "Hj" in
  intros j Hj; repeat (destruct j as [|j]; [reflexivity|]);
  first [reflexivity | lia].

(** *** C1 *)

(** C1, as amended: when the submission is accepted, fewer than 120
    answers that let the loop go on come first, and status query number
    [k] (from 0) is answered by a body whose status is ['succeeded'], the
    handler sends exactly [k + 1] status queries, nothing after the last
    of them but the response, and the response is the 200 reply whose text
    is [analyzeResult.content || ''] of that body. *)
Theorem succeeded_within_budget cfg req w endpoint_var key f buf loc k data :
  ready cfg req endpoint_var key f buf ->
  accepts w loc ->
  k < MAX_POLLS ->
  (forall j, j < k -> is_running (poll_reply w j) = true) ->
  json_of (poll_reply w k) = Some data ->
  get_member data "status" = inr (Some (JStr "succeeded")) ->
  run cfg req w =
    EvFetch (submit_request endpoint_var key f buf)
      :: poll_rounds key loc (S k) ++ [EvSend (reply_text (result_text data))]
  /\ status_queries (run cfg req w) = repeat (poll_request key loc) (S k)
  /\ responses (run cfg req w) = [reply_text (result_text data)].
Proof.
  intros Hready Hacc Hk Hpre Hjson Hstatus.
  rewrite (run_succeeded cfg req w endpoint_var key f buf loc Hready Hacc k Hk
             Hpre data Hjson Hstatus).
  split; [reflexivity|]. split.
  - apply queries_of_shape; reflexivity.
  - apply responses_of_shape.
Qed.

Lemma succeeded_within_budget_witness :
  length (status_queries (run sample_config sample_request world_hello)) = 3
  /\ responses (run sample_config sample_request world_hello)
       = [reply_text (JStr "Page 1: hello")].
Proof.
  destruct (succeeded_within_budget sample_config sample_request world_hello
              "https://di.example/" "secret" sample_file
              [Byte.x25; Byte.x50; Byte.x44; Byte.x46] "op-123" 2 hello_result)
    as (_ & Hq & Hr).
  - prove_ready.
  - prove_accepts.
  - unfold MAX_POLLS. lia.
  - prove_prefix.
  - reflexivity.
  - reflexivity.
  - split; [rewrite Hq; reflexivity | exact Hr].
Defined.

(** C1 as stated fails: 120 answers [running] and then [succeeded].  The
    first terminal status of the sequence is ['succeeded'], and the handler
    answers 504 after 120 queries without ever asking for that answer. *)
Lemma late_success_times_out :
  forallb (fun i => is_running (poll_reply world_late i)) (seq 0 120) = true
  /\ json_of (poll_reply world_late 120) = Some hello_result
  /\ get_member hello_result "status" = inr (Some (JStr "succeeded"))
  /\ responses (run sample_config sample_request world_late) = [reply_timeout]
  /\ length (status_queries (run sample_config sample_request world_late)) = 120
  /\ responses (run sample_config sample_request world_late)
       <> [reply_text (result_text hello_result)].
Proof.
  repeat split; try (vm_compute; reflexivity).
  vm_compute. discriminate.
Qed.

(** *** C2 *)

(** C2, as amended: when the submission is accepted and each of the first
    120 status queries is answered by a reply that lets the loop go on (a
    JSON body other than [null] whose status is neither ['succeeded'] nor
    ['failed']), the handler sends exactly 120 status queries and then the
    504 reply. *)
Theorem timeout_after_max_polls cfg req w endpoint_var key f buf loc :
  ready cfg req endpoint_var key f buf ->
  accepts w loc ->
  (forall j, j < MAX_POLLS -> is_running (poll_reply w j) = true) ->
  run cfg req w =
    EvFetch (submit_request endpoint_var key f buf)
      :: poll_rounds key loc MAX_POLLS ++ [EvSend reply_timeout]
  /\ length (status_queries (run cfg req w)) = 120
  /\ responses (run cfg req w) = [reply_timeout]
  /\ code reply_timeout = 504%Z.
Proof.
  intros Hready Hacc Hpre.
  assert (Hrun : run cfg req w =
            EvFetch (submit_request endpoint_var key f buf)
              :: poll_rounds key loc MAX_POLLS ++ [EvSend reply_timeout]).
  { rewrite (run_accepted cfg req w endpoint_var key f buf Hready loc Hacc).
    replace MAX_POLLS with (MAX_POLLS + 0) at 1 by lia.
    rewrite (poll_loop_running_prefix key loc w MAX_POLLS 0 0
               [EvFetch (submit_request endpoint_var key f buf)] eq_refl Hpre).
    reflexivity. }
  rewrite Hrun. split; [reflexivity|]. split; [|split].
  - rewrite queries_of_shape by reflexivity. apply repeat_length.
  - apply responses_of_shape.
  - reflexivity.
Qed.

Lemma timeout_after_max_polls_witness :
  length (status_queries (run sample_config sample_request world_never_done)) = 120
  /\ responses (run sample_config sample_request world_never_done) = [reply_timeout].
Proof.
  destruct (timeout_after_max_polls sample_config sample_request world_never_done
              "https://di.example/" "secret" sample_file
              [Byte.x25; Byte.x50; Byte.x44; Byte.x46] "op-123")
    as (_ & Hq & Hr & _).
  - prove_ready.
  - prove_accepts.
  - intros j Hj. reflexivity.
  - split; assumption.
Defined.

(** C2 as stated fails: no answer carries a terminal status, and the
    handler does not send 120 queries and does not answer 504.  When the
    bodies are [null] it answers 500 after one query; when, after one
    answer [running], the bodies are not JSON it answers 500 after two. *)
Lemma silent_answers_abort :
  forallb (fun i => negb (carries_terminal_status (poll_reply world_null_body i)))
          (seq 0 120) = true
  /\ length (status_queries (run sample_config sample_request world_null_body)) = 1
  /\ responses (run sample_config sample_request world_null_body)
     = [reply_exception (null_read_error "status")]
  /\ forallb (fun i => negb (carries_terminal_status (poll_reply world_garbled i)))
             (seq 0 120) = true
  /\ length (status_queries (run sample_config sample_request world_garbled)) = 2
  /\ responses (run sample_config sample_request world_garbled)
     = [reply_exception "FetchError: invalid json response body"].
Proof. repeat split; vm_compute; reflexivity. Qed.

(** *** C3 *)

Ltac different_outcomes :=
  match goal with
  | H : (_, _) = (_, _) |- _ =>
      injection H; intros;
      repeat match goal with
             | E : ?l ++ _ = ?l ++ _ |- _ => apply app_inv_head in E
             | E : ?l = ?l ++ _ |- _ =>
                 rewrite <- (app_nil_r l) in E at 1; apply app_inv_head in E
             end;
      try discriminate
  end.

(** C3, as amended: for every response of the provider to the submission,
    the submission ends in exactly one of four ways.  It yields an
    operation reference exactly when the status is 202 and the
    [operation-location] header has a non-empty value.  It sends the 500
    reply [Azure DI submit failed], which carries the status and the text
    of the body, exactly when the status is not 202 and the body can be
    read.  It sends the 500 reply [Missing Operation-Location] exactly
    when the status is 202 and the header is absent or empty.  It throws
    the error of the reader, sending nothing, exactly when the status is
    not 202 and the body cannot be read. *)
Theorem submit_outcomes w endpoint_var key f buf tr submitResp :
  fetches tr = [] ->
  submit_reply w = inr submitResp ->
  let sent := tr ++ [EvFetch (submit_request endpoint_var key f buf)] in
  let opLocation := headers_get (resp_headers submitResp) "operation-location" in
  let status := resp_status submitResp in
  (forall ref,
      submit_phase endpoint_var key f buf w tr = (inr (Next ref), sent)
      <-> (status = 202%Z /\ opLocation = Some ref /\ ref <> ""))
  /\ (forall txt,
        submit_phase endpoint_var key f buf w tr
          = (inr Return, sent ++ [EvSend (reply_submit_failed status txt)])
        <-> (status <> 202%Z /\ body_text submitResp = inr txt))
  /\ (submit_phase endpoint_var key f buf w tr
        = (inr Return, sent ++ [EvSend reply_missing_location])
      <-> (status = 202%Z /\ truthy_str opLocation = false))
  /\ (forall e,
        submit_phase endpoint_var key f buf w tr = (inl e, sent)
        <-> (status <> 202%Z /\ body_text submitResp = inl e))
  /\ (forall txt,
        code (reply_submit_failed status txt) = 500%Z
        /\ reply_field (reply_submit_failed status txt) "error"
           = Some (JStr "Azure DI submit failed")
        /\ reply_field (reply_submit_failed status txt) "status"
           = Some (JNum status)
        /\ reply_field (reply_submit_failed status txt) "details"
           = Some (JStr txt)).
Proof.
  intros Hnone Hs sent opLocation status.
  rewrite (submit_phase_eq w endpoint_var key f buf tr Hnone), Hs. cbv zeta.
  fold sent. fold opLocation. fold status.
  split; [|split; [|split; [|split]]].
  5:{ intros txt. repeat split. }
  - intros ref.
    destruct (Z.eqb_spec status 202) as [Hst|Hst]; cbn [negb].
    + destruct opLocation as [l|].
      * unfold truthy_str. destruct (String.eqb_spec l "") as [->|Hne]; cbn [negb].
        -- split; [intros H; discriminate|].
           intros (_ & Hsome & Hne). injection Hsome as <-. contradiction.
        -- split.
           ++ intros H. injection H as <-. repeat split; assumption.
           ++ intros (_ & Hsome & _). injection Hsome as <-. reflexivity.
      * split; [intros H; discriminate|intros (_ & H & _); discriminate].
    + split; [|intros (H & _); contradiction].
      destruct (body_text submitResp); intros H; discriminate.
  - intros txt.
    destruct (Z.eqb_spec status 202) as [Hst|Hst]; cbn [negb].
    + split; [|intros (H & _); contradiction].
      destruct opLocation as [l|]; [destruct (negb (truthy_str (Some l)))|];
        intros H; different_outcomes.
    + destruct (body_text submitResp) as [e|t0].
      * split; [intros H; discriminate|intros (_ & H); discriminate].
      * split.
        -- intros H. split; [exact Hst|].
           injection H as H. apply app_inv_head in H.
           injection H as H. rewrite H. reflexivity.
        -- intros (_ & H). injection H as ->. reflexivity.
  - destruct (Z.eqb_spec status 202) as [Hst|Hst]; cbn [negb].
    + destruct opLocation as [l|].
      * unfold truthy_str. destruct (String.eqb_spec l "") as [->|Hne]; cbn [negb].
        -- split; [intros _; split; [exact Hst|reflexivity]|reflexivity].
        -- split; [intros H; discriminate|intros [_ H]; discriminate].
      * split; [intros _; split; [exact Hst|reflexivity]|reflexivity].
    + split; [|intros (H & _); contradiction].
      destruct (body_text submitResp); intros H; [discriminate|different_outcomes].
  - intros e.
    destruct (Z.eqb_spec status 202) as [Hst|Hst]; cbn [negb].
    + split; [|intros (H & _); contradiction].
      destruct opLocation as [l|]; [destruct (negb (truthy_str (Some l)))|];
        intros H; discriminate.
    + destruct (body_text submitResp) as [e0|t0].
      * split.
        -- intros H. injection H as ->. split; [exact Hst|reflexivity].
        -- intros (_ & H). injection H as ->. reflexivity.
      * split; [intros H; discriminate|intros (_ & H); discriminate].
Qed.

Lemma submit_outcomes_witness :
  submit_phase "https://di.example/" "secret" sample_file [Byte.x25] world_hello []
    = (inr (Next "op-123"),
       [EvFetch (submit_request "https://di.example/" "secret" sample_file [Byte.x25])]).
Proof.
  destruct (submit_outcomes world_hello "https://di.example/" "secret"
              sample_file [Byte.x25] []
              (mkResponse 202 [("operation-location", "op-123")] (inr "")
                 (inl "SyntaxError: Unexpected end of JSON input"))
              eq_refl eq_refl) as (Href & _).
  apply (proj2 (Href "op-123")).
  split; [reflexivity|]. split; [reflexivity|discriminate].
Defined.

(** C3 as stated fails twice.  A response has the status 202 and carries
    an [operation-location] header, whose value is empty: the submission
    yields no reference but the 500 reply [Missing Operation-Location].
    And a response has the status 500 and a body that cannot be read to
    its end: the reply is not the rejection that carries the status and
    the body but the 500 reply [Azure DI exception] of the [catch]. *)
Lemma empty_location_is_malformed :
  submit_reply world_empty_location
    = inr (mkResponse 202 [("operation-location", "")] (inr "")
             (inl "SyntaxError: Unexpected end of JSON input"))
  /\ header_values "operation-location" [("operation-location", "")] = [""]
  /\ submit_phase "https://di.example/" "secret" sample_file [Byte.x25]
       world_empty_location []
     = (inr Return,
        [EvFetch (submit_request "https://di.example/" "secret" sample_file [Byte.x25]);
         EvSend reply_missing_location])
  /\ responses (run sample_config sample_request world_empty_location)
     = [reply_missing_location]
  /\ status_queries (run sample_config sample_request world_empty_location) = []
  /\ submit_reply world_rejecting_unreadable
     = inr (mkResponse 500 [] (inl "FetchError: Premature close")
              (inl "FetchError: Premature close"))
  /\ submit_phase "https://di.example/" "secret" sample_file [Byte.x25]
       world_rejecting_unreadable []
     = (inl "FetchError: Premature close",
        [EvFetch (submit_request "https://di.example/" "secret" sample_file [Byte.x25])])
  /\ responses (run sample_config sample_request world_rejecting_unreadable)
     = [reply_exception "FetchError: Premature close"].
Proof. repeat split. Qed.

(** *** C4 *)

(** C4, as amended: when the submission is accepted, fewer than 120
    answers come first, each of which lets the loop go on (a JSON body
    other than [null] whose status is neither ['succeeded'] nor
    ['failed']), and status query number [k] is answered by a body whose
    status is ['failed'], the handler stops there: [k + 1] status queries
    and then the 500 reply [Azure DI failed] whose [details] is that body,
    unchanged.  The reply differs from the 504 reply of a timeout in its
    code. *)
Theorem failed_halts_polling cfg req w endpoint_var key f buf loc k data :
  ready cfg req endpoint_var key f buf ->
  accepts w loc ->
  k < MAX_POLLS ->
  (forall j, j < k -> is_running (poll_reply w j) = true) ->
  json_of (poll_reply w k) = Some data ->
  get_member data "status" = inr (Some (JStr "failed")) ->
  run cfg req w =
    EvFetch (submit_request endpoint_var key f buf)
      :: poll_rounds key loc (S k) ++ [EvSend (reply_failed data)]
  /\ length (status_queries (run cfg req w)) = S k
  /\ responses (run cfg req w) = [reply_failed data]
  /\ code (reply_failed data) = 500%Z
  /\ reply_field (reply_failed data) "error" = Some (JStr "Azure DI failed")
  /\ reply_field (reply_failed data) "details" = Some data
  /\ code reply_timeout = 504%Z
  /\ reply_failed data <> reply_timeout.
Proof.
  intros Hready Hacc Hk Hpre Hjson Hstatus.
  rewrite (run_failed cfg req w endpoint_var key f buf loc Hready Hacc k Hk
             Hpre data Hjson Hstatus).
  split; [reflexivity|]. split; [|split].
  - rewrite queries_of_shape by reflexivity. apply repeat_length.
  - apply responses_of_shape.
  - repeat split. discriminate.
Qed.

Lemma failed_halts_polling_witness :
  length (status_queries (run sample_config sample_request world_failing)) = 3
  /\ responses (run sample_config sample_request world_failing)
       = [reply_failed failed_result]
  /\ reply_field (reply_failed failed_result) "details" = Some failed_result.
Proof.
  destruct (failed_halts_polling sample_config sample_request world_failing
              "https://di.example/" "secret" sample_file
              [Byte.x25; Byte.x50; Byte.x44; Byte.x46] "op-123" 2 failed_result)
    as (_ & Hq & Hr & _ & _ & Hd & _).
  - prove_ready.
  - prove_accepts.
  - unfold MAX_POLLS. lia.
  - prove_prefix.
  - reflexivity.
  - reflexivity.
  - repeat split; assumption.
Defined.

(** C4 as stated fails twice.  After 120 answers [running] the first
    terminal status is ['failed']: the handler answers 504 after 120
    queries and never asks for that answer.  And after one answer
    [running] and one body [null] the first terminal status is ['failed']:
    the handler answers 500 [Azure DI exception] at the body [null], and
    the detail of the provider is not in its reply. *)
Lemma late_failure_times_out :
  forallb (fun i => is_running (poll_reply world_late_failure i)) (seq 0 120) = true
  /\ json_of (poll_reply world_late_failure 120) = Some failed_result
  /\ get_member failed_result "status" = inr (Some (JStr "failed"))
  /\ responses (run sample_config sample_request world_late_failure) = [reply_timeout]
  /\ length (status_queries (run sample_config sample_request world_late_failure)) = 120
  /\ carries_terminal_status (poll_reply world_null_then_failed 0) = false
  /\ carries_terminal_status (poll_reply world_null_then_failed 1) = false
  /\ json_of (poll_reply world_null_then_failed 2) = Some failed_result
  /\ responses (run sample_config sample_request world_null_then_failed)
     = [reply_exception (null_read_error "status")]
  /\ length (status_queries (run sample_config sample_request world_null_then_failed))
     = 2.
Proof. repeat split; vm_compute; reflexivity. Qed.

(** *** C5 *)

(** C5: when the submission is accepted, fewer than 120 answers that let
    the loop go on come first, and the [fetch] of status query number [k]
    rejects with [e], the handler stops there: [k + 1] status queries and
    then the 500 reply of the [catch], whose code is the code of the reply
    to a failure reported by the provider. *)
Theorem transport_failure_aborts cfg req w endpoint_var key f buf loc k e :
  ready cfg req endpoint_var key f buf ->
  accepts w loc ->
  k < MAX_POLLS ->
  (forall j, j < k -> is_running (poll_reply w j) = true) ->
  poll_reply w k = inl e ->
  run cfg req w =
    EvFetch (submit_request endpoint_var key f buf)
      :: poll_rounds key loc (S k) ++ [EvSend (reply_exception e)]
  /\ length (status_queries (run cfg req w)) = S k
  /\ responses (run cfg req w) = [reply_exception e]
  /\ (forall data, code (reply_exception e) = code (reply_failed data)).
Proof.
  intros Hready Hacc Hk Hpre Hrej.
  rewrite (run_thrown cfg req w endpoint_var key f buf loc Hready Hacc k Hk
             Hpre e (or_introl Hrej)).
  split; [reflexivity|]. split; [|split].
  - rewrite queries_of_shape by reflexivity. apply repeat_length.
  - apply responses_of_shape.
  - intros data. reflexivity.
Qed.

Lemma transport_failure_aborts_witness :
  length (status_queries (run sample_config sample_request world_broken_line)) = 3
  /\ responses (run sample_config sample_request world_broken_line)
       = [reply_exception "FetchError: socket hang up"].
Proof.
  destruct (transport_failure_aborts sample_config sample_request world_broken_line
              "https://di.example/" "secret" sample_file
              [Byte.x25; Byte.x50; Byte.x44; Byte.x46] "op-123" 2
              "FetchError: socket hang up")
    as (_ & Hq & Hr & _).
  - prove_ready.
  - prove_accepts.
  - unfold MAX_POLLS. lia.
  - prove_prefix.
  - reflexivity.
  - split; assumption.
Defined.

(** *** C6 *)

(** C6, as amended: when a status query is answered by a body that is not
    [null], so that [data.status] has a value (which may be [undefined]),
    and that value is neither ['succeeded'] nor ['failed'], the iteration
    sends nothing and throws nothing, and the loop goes on with one
    iteration less; when it was the last iteration, the 504 reply
    follows. *)
Theorem non_terminal_status_continues
    key loc w n i tr pollResp data status :
  length (fetches tr) = S i ->
  poll_reply w i = inr pollResp ->
  body_json pollResp = inr data ->
  data <> JNull ->
  get_member data "status" = inr status ->
  status <> Some (JStr "succeeded") ->
  status <> Some (JStr "failed") ->
  poll_loop key loc (S n) w tr = poll_loop key loc n w (tr ++ poll_round key loc)
  /\ after_poll (poll_loop key loc 1 w tr)
     = (tr ++ poll_round key loc) ++ [EvSend reply_timeout].
Proof.
  intros Hlen Hreply Hbody _ Hstatus Hs Hf.
  assert (Hrun : is_running (poll_reply w i) = true).
  { unfold is_running, json_of. rewrite Hreply, Hbody, Hstatus.
    destruct (strict_eq_str status "succeeded") eqn:E1.
    { apply strict_eq_str_true in E1. contradiction. }
    destruct (strict_eq_str status "failed") eqn:E2.
    { apply strict_eq_str_true in E2. contradiction. }
    reflexivity. }
  split.
  - apply (poll_loop_running_step key loc w n i tr Hlen Hrun).
  - rewrite (poll_loop_running_step key loc w 0 i tr Hlen Hrun). reflexivity.
Qed.

Lemma non_terminal_status_continues_witness :
  poll_loop "secret" "op-123" 5 world_hello [EvFetch (poll_request "secret" "op-123")]
  = poll_loop "secret" "op-123" 4 world_hello
      ([EvFetch (poll_request "secret" "op-123")] ++ poll_round "secret" "op-123").
Proof.
  refine (proj1 (non_terminal_status_continues "secret" "op-123" world_hello 4 0
                   [EvFetch (poll_request "secret" "op-123")]
                   (mkResponse 200 [("content-type", "application/json")] (inr "")
                      (inr (status_body "running" [])))
                   (status_body "running" []) (Some (JStr "running"))
                   eq_refl eq_refl eq_refl _ eq_refl _ _)); discriminate.
Defined.

(** C6 as stated fails: the body of the answer is [null], which has no
    [status] field; the read of [data.status] throws and the handler
    answers 500 after this one query, with 119 iterations left. *)
Lemma null_body_aborts :
  json_of (poll_reply world_null_body 0) = Some JNull
  /\ opt_member (Some JNull) "status" = undefined
  /\ run sample_config sample_request world_null_body
     = EvFetch (submit_request "https://di.example/" "secret" sample_file
                  [Byte.x25; Byte.x50; Byte.x44; Byte.x46])
         :: poll_round "secret" "op-123"
         ++ [EvSend (reply_exception (null_read_error "status"))]
  /\ length (status_queries (run sample_config sample_request world_null_body)) = 1.
Proof. repeat split. Qed.

(** *** C7 *)

(** C7, as amended: when the request has no file, or a file with no
    buffer, no request is sent to the provider, and the response is the
    400 reply [No file uploaded] when both environment variables are set,
    the 500 reply [Missing Azure DI env vars] otherwise. *)
Theorem missing_upload_is_refused cfg req w :
  file_buffer req = None ->
  fetches (run cfg req w) = []
  /\ (configured cfg = true -> run cfg req w = [EvSend reply_no_file])
  /\ (configured cfg = false -> run cfg req w = [EvSend reply_missing_env])
  /\ code reply_no_file = 400%Z.
Proof.
  intros Hnone. split; [|split; [|split]].
  - destruct (configured cfg) eqn:Hc.
    + rewrite (run_no_buffer cfg req w Hc Hnone). reflexivity.
    + rewrite (run_not_configured cfg req w Hc). reflexivity.
  - intros Hc. apply (run_no_buffer cfg req w Hc Hnone).
  - intros Hc. apply (run_not_configured cfg req w Hc).
  - reflexivity.
Qed.

Lemma missing_upload_is_refused_witness :
  fetches (run sample_config no_upload world_hello) = []
  /\ run sample_config no_upload world_hello = [EvSend reply_no_file].
Proof.
  destruct (missing_upload_is_refused sample_config no_upload world_hello eq_refl)
    as (Hf & Hr & _).
  split; [exact Hf | apply Hr; reflexivity].
Defined.

(** C7 as stated fails twice.  An upload of no bytes has a buffer, which
    is an object and so truthy: the submission is sent.  And a request
    with no file is answered 500, not 400, when the environment is not
    set. *)
Lemma empty_upload_is_submitted :
  file_buffer empty_upload = Some []
  /\ submissions (run sample_config empty_upload world_rejecting)
     = [submit_request "https://di.example/" "secret"
          (mkFile (Some []) (Some "")) []]
  /\ responses (run sample_config empty_upload world_rejecting)
     = [reply_submit_failed 401 "Access denied"]
  /\ file_buffer no_upload = None
  /\ run no_config no_upload world_hello = [EvSend reply_missing_env]
  /\ code reply_missing_env = 500%Z.
Proof. repeat split. Qed.

(** *** C8 *)

(** C8, as amended: for every request that passes the guards the handler
    sends one submission, whose body is the buffer and whose
    [Content-Type] is the mime type of the upload when that is a non-empty
    string; when the mime type is absent or empty the [Content-Type] is
    ['application/pdf']. *)
Theorem content_type_passthrough cfg req w endpoint_var key f buf :
  ready cfg req endpoint_var key f buf ->
  submissions (run cfg req w) = [submit_request endpoint_var key f buf]
  /\ req_body (submit_request endpoint_var key f buf) = Some buf
  /\ (forall m, mimetype f = Some m -> m <> "" ->
        headers_get (req_headers (submit_request endpoint_var key f buf))
          "Content-Type" = Some m)
  /\ (truthy_str (mimetype f) = false ->
        headers_get (req_headers (submit_request endpoint_var key f buf))
          "Content-Type" = Some "application/pdf").
Proof.
  intros Hready.
  destruct (run_ready_shape cfg req w endpoint_var key f buf Hready)
    as (loc & m & reply & Hrun & _).
  split; [|split; [|split]].
  - rewrite Hrun. apply submissions_of_shape; reflexivity.
  - reflexivity.
  - intros mt Hm Hne. unfold headers_get. cbn. unfold content_type_of.
    rewrite Hm, (truthy_str_Some _ Hne). reflexivity.
  - intros Hfalse. unfold headers_get. cbn. unfold content_type_of.
    destruct (mimetype f) as [mt|]; [|reflexivity].
    rewrite Hfalse. reflexivity.
Qed.

Lemma content_type_passthrough_witness :
  map (fun r => headers_get (req_headers r) "Content-Type")
      (submissions (run sample_config sample_request world_hello))
  = [Some "image/png"].
Proof.
  destruct (content_type_passthrough sample_config sample_request world_hello
              "https://di.example/" "secret" sample_file
              [Byte.x25; Byte.x50; Byte.x44; Byte.x46]) as (Hs & _ & Hm & _).
  - prove_ready.
  - rewrite Hs. cbn [map]. rewrite (Hm "image/png" eq_refl); [reflexivity|discriminate].
Defined.

(** C8 as stated fails: the upload comes with the empty mime type, or with
    none, and the provider is sent ['application/pdf']. *)
Lemma empty_mime_type_is_replaced :
  file empty_upload = Some (mkFile (Some []) (Some ""))
  /\ map (fun r => headers_get (req_headers r) "Content-Type")
         (submissions (run sample_config empty_upload world_hello))
     = [Some "application/pdf"]
  /\ file untyped_upload = Some (mkFile (Some [Byte.x25]) None)
  /\ map (fun r => headers_get (req_headers r) "Content-Type")
         (submissions (run sample_config untyped_upload world_hello))
     = [Some "application/pdf"].
Proof. repeat split. Qed.

(** *** C9 *)

(** C9: every invocation, whatever the configuration, the request and the
    provider, ends with exactly one response, which is the last event of
    the run and one of the replies in the text of the handler; it sends at
    most one submission and at most 120 status queries, and every status
    query but the last was answered by a reply that lets the loop go on:
    the handler never asks again after an answer that ends the loop. *)
Theorem exactly_one_response cfg req w :
  exists (before : Trace) (reply : HttpReply),
    run cfg req w = before ++ [EvSend reply]
    /\ responses (run cfg req w) = [reply]
    /\ handler_reply reply
    /\ length (submissions (run cfg req w)) <= 1
    /\ length (status_queries (run cfg req w)) <= MAX_POLLS
    /\ (forall i, S i < length (status_queries (run cfg req w)) ->
          is_running (poll_reply w i) = true).
Proof.
  destruct (guards_cases cfg req) as [Hc|[[Hc Hb]|(ep & key & f & buf & Hready)]].
  - exists [], reply_missing_env. rewrite (run_not_configured cfg req w Hc).
    cbn. repeat split; try constructor; lia.
  - exists [], reply_no_file. rewrite (run_no_buffer cfg req w Hc Hb).
    cbn. repeat split; try constructor; lia.
  - destruct (run_ready_shape cfg req w ep key f buf Hready)
      as (loc & m & reply & Hrun & Hreply & Hle & Hpre).
    exists (EvFetch (submit_request ep key f buf) :: poll_rounds key loc m), reply.
    rewrite Hrun. split; [reflexivity|]. split; [apply responses_of_shape|].
    split; [exact Hreply|].
    rewrite submissions_of_shape by reflexivity.
    rewrite queries_of_shape by reflexivity. rewrite repeat_length.
    split; [cbn; lia|]. split; [exact Hle|exact Hpre].
Qed.

(** *** C10 *)

(** C10, as amended: when the submission is accepted and the loop ends on
    a body whose status is ['succeeded'], the response is the 200 reply
    whatever else the body has.  Its text is [analyzeResult.content] when
    that value is truthy (a non-empty string, and also a number other than
    0, [true], an array or an object) and the empty string otherwise
    (no [analyzeResult], no [content], or a [content] that is [null],
    [false], 0 or empty). *)
Theorem success_text_extraction cfg req w endpoint_var key f buf loc k data :
  ready cfg req endpoint_var key f buf ->
  accepts w loc ->
  k < MAX_POLLS ->
  (forall j, j < k -> is_running (poll_reply w j) = true) ->
  json_of (poll_reply w k) = Some data ->
  get_member data "status" = inr (Some (JStr "succeeded")) ->
  responses (run cfg req w) = [reply_text (result_text data)]
  /\ code (reply_text (result_text data)) = 200%Z
  /\ (forall s, result_content data = Some (JStr s) -> s <> "" ->
        result_text data = JStr s)
  /\ (forall v, result_content data = Some v -> truthy (Some v) = true ->
        result_text data = v)
  /\ (truthy (result_content data) = false -> result_text data = JStr "")
  /\ (opt_member (Some data) "analyzeResult" = undefined ->
        result_text data = JStr "").
Proof.
  intros Hready Hacc Hk Hpre Hjson Hstatus.
  rewrite (run_succeeded cfg req w endpoint_var key f buf loc Hready Hacc k Hk
             Hpre data Hjson Hstatus).
  split; [apply responses_of_shape|]. split; [reflexivity|].
  unfold result_text, or_else. split; [|split; [|split]].
  - intros s Hc Hne. rewrite Hc. cbn [truthy].
    destruct (String.eqb_spec s ""); [contradiction|reflexivity].
  - intros v Hc Hv. rewrite Hc, Hv. reflexivity.
  - intros Hfalse. destruct (result_content data) as [v|]; [|reflexivity].
    rewrite Hfalse. reflexivity.
  - intros Hno. unfold result_content. rewrite Hno. reflexivity.
Qed.

Lemma success_text_extraction_witness :
  responses (run sample_config sample_request world_bare_success)
  = [reply_text (JStr "")].
Proof.
  destruct (success_text_extraction sample_config sample_request world_bare_success
              "https://di.example/" "secret" sample_file
              [Byte.x25; Byte.x50; Byte.x44; Byte.x46] "op-123" 1
              (status_body "succeeded" []))
    as (Hr & _ & _ & _ & _ & Hempty).
  - prove_ready.
  - prove_accepts.
  - unfold MAX_POLLS. lia.
  - prove_prefix.
  - reflexivity.
  - reflexivity.
  - rewrite Hr, (Hempty eq_refl). reflexivity.
Defined.

(** C10 as stated fails: the [content] of the result is the number 42,
    which is not a non-empty string, and the text of the response is 42,
    not the empty string. *)
Lemma numeric_content_is_returned :
  json_of (poll_reply world_numeric 0) = Some numeric_result
  /\ get_member numeric_result "status" = inr (Some (JStr "succeeded"))
  /\ result_content numeric_result = Some (JNum 42)
  /\ responses (run sample_config sample_request world_numeric)
     = [reply_text (JNum 42)]
  /\ reply_text (JNum 42) <> reply_text (JStr "").
Proof. repeat split. discriminate. Qed.

(** ** Further properties of the OCR handler *)

(** *** The submission URL *)

Lemma strip_trailing_slash_app (s : string) :
  strip_trailing_slash (s ++ "/")%string = s.
Proof.
  induction s as [|c s IH]; [reflexivity|].
  cbn [String.append]. cbn [strip_trailing_slash].
  destruct (s ++ "/")%string as [|c' rest] eqn:E.
  - destruct s; discriminate.
  - rewrite IH. reflexivity.
Qed.

Lemma strip_trailing_slash_id (s : string) :
  ends_with_slash s = false -> strip_trailing_slash s = s.
Proof.
  induction s as [|c s IH]; [reflexivity|].
  cbn [ends_with_slash strip_trailing_slash].
  destruct s as [|c' rest].
  - intros ->. reflexivity.
  - intros H. rewrite (IH H). reflexivity.
Qed.

(** X1: an endpoint written with one slash at its end and the same
    endpoint written without it give the same submission URL, the endpoint
    followed by the path of the [prebuilt-read] model and the API version;
    only one slash is removed. *)
Theorem submit_url_trailing_slash (endpoint_var : string) :
  ends_with_slash endpoint_var = false ->
  submit_url (endpoint_var ++ "/")%string = submit_url endpoint_var
  /\ submit_url endpoint_var
     = (endpoint_var
        ++ "/documentintelligence/documentModels/prebuilt-read:analyze?api-version=2024-11-30")%string
  /\ submit_url (endpoint_var ++ "//")%string
     = (endpoint_var
        ++ "//documentintelligence/documentModels/prebuilt-read:analyze?api-version=2024-11-30")%string.
Proof.
  intros Hno. unfold submit_url.
  rewrite strip_trailing_slash_app, (strip_trailing_slash_id _ Hno).
  split; [reflexivity|]. split; [reflexivity|].
  replace (endpoint_var ++ "//")%string with ((endpoint_var ++ "/") ++ "/")%string.
  - rewrite strip_trailing_slash_app.
    induction endpoint_var as [|c s IH]; [reflexivity|].
    cbn [String.append]. f_equal. apply IH.
    cbn [ends_with_slash] in Hno. destruct s; [reflexivity|exact Hno].
  - induction endpoint_var as [|c s IH]; [reflexivity|].
    cbn [String.append]. f_equal. apply IH.
    cbn [ends_with_slash] in Hno. destruct s; [reflexivity|exact Hno].
Qed.

Lemma submit_url_trailing_slash_witness :
  submit_url "https://di.example/" = submit_url "https://di.example".
Proof.
  exact (proj1 (submit_url_trailing_slash "https://di.example" eq_refl)).
Defined.

(** *** Every run past the guards *)

Lemma first_not_running (w : World) (n : nat) :
  running_before w n
  \/ exists k, k < n /\ running_before w k /\ is_running (poll_reply w k) = false.
Proof.
  induction n as [|n [IH|(k & Hk & Hpre & Hno)]].
  - left. intros j Hj. lia.
  - destruct (is_running (poll_reply w n)) eqn:E.
    + left. intros j Hj. destruct (Nat.eq_dec j n) as [->|Hne]; [exact E|].
      apply IH. lia.
    + right. exists n. split; [lia|]. split; assumption.
  - right. exists k. split; [lia|]. split; assumption.
Qed.

(** A reply that does not let the loop go on says [succeeded], says
    [failed], or makes the iteration throw. *)
Lemma not_running_cases (w : World) (k : nat) :
  is_running (poll_reply w k) = false ->
  (exists data, json_of (poll_reply w k) = Some data
                /\ get_member data "status" = inr (Some (JStr "succeeded")))
  \/ (exists data, json_of (poll_reply w k) = Some data
                   /\ get_member data "status" = inr (Some (JStr "failed")))
  \/ (exists e, poll_throws w k e).
Proof.
  unfold is_running, poll_throws, json_of.
  destruct (poll_reply w k) as [e|pollResp].
  { intros _. right. right. exists e. left. reflexivity. }
  destruct (body_json pollResp) as [e|data] eqn:Hb.
  { intros _. right. right. exists e. right. left. exists pollResp. split; [reflexivity|exact Hb]. }
  destruct data as [|b|n|s|items|fields];
    try (cbn [get_member strict_eq_str]; discriminate).
  - intros _. right. right. exists (null_read_error "status"). right. right.
    split; reflexivity.
  - cbn [get_member].
    destruct (strict_eq_str (lookup_field "status" fields) "succeeded") eqn:E1.
    { intros _. left. exists (JObj fields). split; [reflexivity|].
      apply strict_eq_str_true in E1. cbn [get_member]. rewrite E1. reflexivity. }
    destruct (strict_eq_str (lookup_field "status" fields) "failed") eqn:E2;
      [|discriminate].
    intros _. right. left. exists (JObj fields). split; [reflexivity|].
    apply strict_eq_str_true in E2. cbn [get_member]. rewrite E2. reflexivity.
Qed.

(** The loop runs out: 120 answers that let it go on. *)
Lemma run_timeout cfg req w endpoint_var key f buf loc :
  ready cfg req endpoint_var key f buf ->
  accepts w loc ->
  running_before w MAX_POLLS ->
  run cfg req w =
    EvFetch (submit_request endpoint_var key f buf)
      :: poll_rounds key loc MAX_POLLS ++ [EvSend reply_timeout].
Proof.
  intros Hready Hacc Hpre.
  rewrite (run_accepted cfg req w endpoint_var key f buf Hready loc Hacc).
  replace MAX_POLLS with (MAX_POLLS + 0) at 1 by lia.
  rewrite (poll_loop_running_prefix key loc w MAX_POLLS 0 0
             [EvFetch (submit_request endpoint_var key f buf)] eq_refl Hpre).
  reflexivity.
Qed.

(** X2: every run of the handler that passes the two guards has one of
    eight shapes: the submission throws; it is rejected and the body of
    the rejection is relayed; it is rejected and the body cannot be read;
    it is accepted without a usable location; or it is accepted and the
    loop runs out after 120 answers, or stops at the first answer that
    says [succeeded], says [failed] or throws.  No other sequence of
    requests and responses is possible. *)
Theorem ocr_runs_classified cfg req w endpoint_var key f buf :
  ready cfg req endpoint_var key f buf ->
  ocr_run w (submit_request endpoint_var key f buf) key (run cfg req w).
Proof.
  intros Hready.
  pose proof (run_ready cfg req w endpoint_var key f buf Hready) as Hrun.
  rewrite (submit_phase_eq w endpoint_var key f buf [] eq_refl) in Hrun.
  cbv zeta in Hrun.
  destruct (submit_reply w) as [e|submitResp] eqn:Hs.
  { rewrite Hrun. apply Run_submit_throws. exact Hs. }
  destruct (Z.eqb_spec (resp_status submitResp) 202) as [Hst|Hst];
    cbn [negb] in Hrun.
  2:{ destruct (body_text submitResp) as [e|txt] eqn:Hb; rewrite Hrun.
      - apply (Run_rejected_unreadable w _ key submitResp e Hs Hst Hb).
      - apply (Run_rejected w _ key submitResp txt Hs Hst Hb). }
  destruct (headers_get (resp_headers submitResp) "operation-location")
    as [loc|] eqn:Hh.
  2:{ rewrite Hrun. apply (Run_no_location w _ key submitResp Hs Hst).
      rewrite Hh. reflexivity. }
  destruct (truthy_str (Some loc)) eqn:Hl; cbn [negb] in Hrun.
  2:{ rewrite Hrun. apply (Run_no_location w _ key submitResp Hs Hst).
      rewrite Hh. exact Hl. }
  clear Hrun.
  assert (Hacc : accepts w loc).
  { exists submitResp. split; [exact Hs|]. split; [exact Hst|]. split; [exact Hh|].
    intros ->. discriminate. }
  destruct (first_not_running w MAX_POLLS) as [Hall|(k & Hk & Hpre & Hno)].
  - rewrite (run_timeout cfg req w endpoint_var key f buf loc Hready Hacc Hall).
    apply Run_timeout; assumption.
  - destruct (not_running_cases w k Hno)
      as [(data & Hj & Hst')|[(data & Hj & Hst')|(e & He)]].
    + rewrite (run_succeeded cfg req w endpoint_var key f buf loc Hready Hacc k Hk
                 Hpre data Hj Hst').
      apply Run_succeeded; assumption.
    + rewrite (run_failed cfg req w endpoint_var key f buf loc Hready Hacc k Hk
                 Hpre data Hj Hst').
      apply Run_failed; assumption.
    + rewrite (run_thrown cfg req w endpoint_var key f buf loc Hready Hacc k Hk
                 Hpre e He).
      apply Run_poll_throws; assumption.
Qed.

Lemma ocr_runs_classified_witness :
  ocr_run world_hello
    (submit_request "https://di.example/" "secret" sample_file
       [Byte.x25; Byte.x50; Byte.x44; Byte.x46])
    "secret" (run sample_config sample_request world_hello).
Proof.
  apply (ocr_runs_classified sample_config sample_request world_hello
           "https://di.example/" "secret" sample_file
           [Byte.x25; Byte.x50; Byte.x44; Byte.x46]).
  prove_ready.
Defined.

Lemma ready_passes_guards cfg req e k f b :
  ready cfg req e k f b -> configured cfg = true /\ file_buffer req = Some b.
Proof.
  intros (He & He' & Hk & Hk' & Hf & Hb). unfold configured, file_buffer.
  rewrite He, Hk, Hf, (truthy_str_Some _ He'), (truthy_str_Some _ Hk').
  split; [reflexivity|exact Hb].
Qed.

Lemma slept_app (a b : Trace) : slept (a ++ b) = (slept a + slept b)%Z.
Proof.
  induction a as [|ev a IH]; [reflexivity|].
  destruct ev; cbn [app slept]; rewrite IH; lia.
Qed.

Lemma slept_poll_rounds key loc n :
  slept (poll_rounds key loc n) = (1500 * Z.of_nat n)%Z.
Proof.
  induction n as [|n IH]; [reflexivity|].
  cbn [poll_rounds]. rewrite slept_app, IH. cbn [poll_round slept]. lia.
Qed.

Lemma slept_of_shape sr key loc n r :
  slept (EvFetch sr :: poll_rounds key loc n ++ [EvSend r]) = (1500 * Z.of_nat n)%Z.
Proof.
  cbn [slept]. rewrite slept_app, slept_poll_rounds. cbn [slept]. lia.
Qed.

Lemma fetches_of_shape sr key loc n r :
  fetches (EvFetch sr :: poll_rounds key loc n ++ [EvSend r])
  = sr :: repeat (poll_request key loc) n.
Proof.
  cbn [fetches]. rewrite fetches_app, fetches_poll_rounds. cbn [fetches].
  rewrite app_nil_r. reflexivity.
Qed.

(** The one response of a run of a given shape. *)
Ltac only_reply H :=
  cbn [responses app poll_round] in H;
  rewrite ?responses_app, ?responses_poll_rounds in H;
  cbn [responses app In] in H;
  let E := fresh "E" in
  destruct H as [E|E]; [subst|destruct E].

(** *** What a reply tells about the provider *)

(** X3: the handler answers 200 only when the provider has said so: the
    submission was accepted, and one of the at most 120 status queries,
    the first whose answer did not let the loop go on, was answered by a
    body whose status is ['succeeded'], from which the text of the reply
    is taken. *)
Theorem success_only_when_succeeded cfg req w r :
  In r (responses (run cfg req w)) ->
  code r = 200%Z ->
  exists loc k data,
    accepts w loc /\ k < MAX_POLLS /\ running_before w k
    /\ json_of (poll_reply w k) = Some data
    /\ get_member data "status" = inr (Some (JStr "succeeded"))
    /\ r = reply_text (result_text data).
Proof.
  intros Hin Hcode.
  destruct (guards_cases cfg req) as [Hc|[[Hc Hb]|(ep & key & f & buf & Hready)]].
  - rewrite (run_not_configured cfg req w Hc) in Hin. only_reply Hin. cbv in Hcode. discriminate.
  - rewrite (run_no_buffer cfg req w Hc Hb) in Hin. only_reply Hin. cbv in Hcode. discriminate.
  - pose proof (ocr_runs_classified cfg req w ep key f buf Hready) as Hrun.
    remember (run cfg req w) as tr eqn:Htr.
    destruct Hrun as [e Hs|sresp txt Hs Hst Hb|sresp e Hs Hst Hb|sresp Hs Hst Hl
                     |loc Hacc Hall|loc k data Hacc Hk Hpre Hj Hstatus
                     |loc k data Hacc Hk Hpre Hj Hstatus
                     |loc k e Hacc Hk Hpre He];
      only_reply Hin; try (cbv in Hcode; discriminate).
    exists loc, k, data. repeat split; assumption.
Qed.

Lemma success_only_when_succeeded_witness :
  exists loc k data,
    accepts world_hello loc /\ k < MAX_POLLS /\ running_before world_hello k
    /\ json_of (poll_reply world_hello k) = Some data
    /\ get_member data "status" = inr (Some (JStr "succeeded"))
    /\ reply_text (JStr "Page 1: hello") = reply_text (result_text data).
Proof.
  apply (success_only_when_succeeded sample_config sample_request world_hello
           (reply_text (JStr "Page 1: hello"))).
  - vm_compute. left. reflexivity.
  - reflexivity.
Defined.

(** X4: the handler answers 504 only after the whole budget: the
    submission was accepted, each of 120 status queries was answered by a
    reply that let the loop go on, and the handler has asked to wait
    180000 ms in all. *)
Theorem timeout_only_after_budget cfg req w r :
  In r (responses (run cfg req w)) ->
  code r = 504%Z ->
  r = reply_timeout
  /\ (exists loc, accepts w loc)
  /\ running_before w MAX_POLLS
  /\ length (status_queries (run cfg req w)) = 120
  /\ slept (run cfg req w) = 180000%Z.
Proof.
  intros Hin Hcode.
  destruct (guards_cases cfg req) as [Hc|[[Hc Hb]|(ep & key & f & buf & Hready)]].
  - rewrite (run_not_configured cfg req w Hc) in Hin. only_reply Hin. cbv in Hcode. discriminate.
  - rewrite (run_no_buffer cfg req w Hc Hb) in Hin. only_reply Hin. cbv in Hcode. discriminate.
  - pose proof (ocr_runs_classified cfg req w ep key f buf Hready) as Hrun.
    remember (run cfg req w) as tr eqn:Htr.
    destruct Hrun as [e Hs|sresp txt Hs Hst Hb|sresp e Hs Hst Hb|sresp Hs Hst Hl
                     |loc Hacc Hall|loc k data Hacc Hk Hpre Hj Hstatus
                     |loc k data Hacc Hk Hpre Hj Hstatus
                     |loc k e Hacc Hk Hpre He];
      only_reply Hin; try (cbv in Hcode; discriminate).
    split; [reflexivity|]. split; [exists loc; exact Hacc|]. split; [exact Hall|].
    split.
    + rewrite queries_of_shape by reflexivity. apply repeat_length.
    + rewrite slept_of_shape. reflexivity.
Qed.

Lemma timeout_only_after_budget_witness :
  running_before world_never_done MAX_POLLS
  /\ slept (run sample_config sample_request world_never_done) = 180000%Z.
Proof.
  destruct (timeout_only_after_budget sample_config sample_request world_never_done
              reply_timeout) as (_ & _ & Hall & _ & Hs).
  - vm_compute. left. reflexivity.
  - reflexivity.
  - split; assumption.
Defined.

(** X5: every response of the handler has the code 200, 400, 500 or 504,
    and the code is 400 only for a missing upload with both environment
    variables set, in which case the handler has sent nothing to the
    provider: every other failure is a 500 or a 504. *)
Theorem bad_request_only_for_missing_upload cfg req w r :
  In r (responses (run cfg req w)) ->
  (code r = 200%Z \/ code r = 400%Z \/ code r = 500%Z \/ code r = 504%Z)
  /\ (code r = 400%Z ->
      r = reply_no_file
      /\ configured cfg = true
      /\ file_buffer req = None
      /\ fetches (run cfg req w) = [])
  /\ (configured cfg = true -> file_buffer req = None -> r = reply_no_file).
Proof.
  intros Hin.
  destruct (guards_cases cfg req) as [Hc|[[Hc Hb]|(ep & key & f & buf & Hready)]].
  - rewrite (run_not_configured cfg req w Hc) in Hin. only_reply Hin.
    split; [right; right; left; reflexivity|].
    split; [intros Hcode; cbv in Hcode; discriminate|].
    intros Hc'. rewrite Hc in Hc'. discriminate.
  - rewrite (run_no_buffer cfg req w Hc Hb) in *. only_reply Hin.
    split; [right; left; reflexivity|]. repeat split; assumption.
  - destruct (ready_passes_guards _ _ _ _ _ _ Hready) as [_ Hsome].
    pose proof (ocr_runs_classified cfg req w ep key f buf Hready) as Hrun.
    remember (run cfg req w) as tr eqn:Htr.
    destruct Hrun as [e Hs|sresp txt Hs Hst Hb|sresp e Hs Hst Hb|sresp Hs Hst Hl
                     |loc Hacc Hall|loc k data Hacc Hk Hpre Hj Hstatus
                     |loc k data Hacc Hk Hpre Hj Hstatus
                     |loc k e Hacc Hk Hpre He];
      only_reply Hin;
      (split;
       [ first [ left; reflexivity
               | right; right; left; reflexivity
               | right; right; right; reflexivity ]
       | split;
         [ intros Hcode; cbv in Hcode; discriminate
         | intros _ Hnone; rewrite Hnone in Hsome; discriminate ] ]).
Qed.

Lemma bad_request_only_for_missing_upload_witness :
  configured sample_config = true /\ file_buffer no_upload = None
  /\ fetches (run sample_config no_upload world_hello) = [].
Proof.
  destruct (bad_request_only_for_missing_upload sample_config no_upload world_hello
              reply_no_file) as (_ & H400 & _).
  - vm_compute. left. reflexivity.
  - destruct (H400 eq_refl) as (_ & Hc & Hb & Hf). repeat split; assumption.
Defined.

(** *** What is sent to the provider *)

(** X6: every request of a run, the submission and each status query,
    carries the subscription key of the configuration in its
    [Ocp-Apim-Subscription-Key] header; the handler sends no request when
    the key is not set. *)
Theorem every_request_carries_the_key cfg req w r :
  In r (fetches (run cfg req w)) ->
  exists key,
    AZURE_DI_KEY cfg = Some key /\ key <> ""
    /\ headers_get (req_headers r) "Ocp-Apim-Subscription-Key" = Some key.
Proof.
  intros Hin.
  destruct (guards_cases cfg req) as [Hc|[[Hc Hb]|(ep & key & f & buf & Hready)]].
  - rewrite (run_not_configured cfg req w Hc) in Hin. destruct Hin.
  - rewrite (run_no_buffer cfg req w Hc Hb) in Hin. destruct Hin.
  - destruct (run_ready_shape cfg req w ep key f buf Hready)
      as (loc & m & reply & Hrun & _).
    rewrite Hrun, fetches_of_shape in Hin.
    destruct Hready as (_ & _ & Hk & Hk' & _).
    exists key. split; [exact Hk|]. split; [exact Hk'|].
    destruct Hin as [<-|Hin].
    + reflexivity.
    + apply repeat_spec in Hin. subst r. reflexivity.
Qed.

Lemma every_request_carries_the_key_witness :
  exists key,
    AZURE_DI_KEY sample_config = Some key /\ key <> ""
    /\ headers_get (req_headers (poll_request "secret" "op-123"))
         "Ocp-Apim-Subscription-Key" = Some key.
Proof.
  apply (every_request_carries_the_key sample_config sample_request world_hello
           (poll_request "secret" "op-123")).
  vm_compute. right. left. reflexivity.
Defined.

(** X7: a status query is sent only when the submission was accepted, and
    then to the URL the provider gave in [operation-location] and nowhere
    else, as a GET without a body that carries the key header and nothing
    of the upload. *)
Theorem status_queries_go_to_the_location cfg req w q :
  In q (status_queries (run cfg req w)) ->
  exists key loc,
    AZURE_DI_KEY cfg = Some key /\ accepts w loc
    /\ q = poll_request key loc
    /\ url q = loc /\ method q = "GET" /\ req_body q = None.
Proof.
  intros Hin.
  destruct (guards_cases cfg req) as [Hc|[[Hc Hb]|(ep & key & f & buf & Hready)]].
  - rewrite (run_not_configured cfg req w Hc) in Hin. destruct Hin.
  - rewrite (run_no_buffer cfg req w Hc Hb) in Hin. destruct Hin.
  - pose proof (ocr_runs_classified cfg req w ep key f buf Hready) as Hrun.
    destruct Hready as (_ & _ & Hkey & _).
    remember (run cfg req w) as tr eqn:Htr.
    destruct Hrun as [e Hs|sresp txt Hs Hst Hb|sresp e Hs Hst Hb|sresp Hs Hst Hl
                     |loc Hacc Hall|loc k data Hacc Hk Hpre Hj Hstatus
                     |loc k data Hacc Hk Hpre Hj Hstatus
                     |loc k e Hacc Hk Hpre He];
      try (cbv in Hin; contradiction);
      rewrite queries_of_shape in Hin by reflexivity;
      apply repeat_spec in Hin; subst q;
      exists key, loc; repeat split; assumption.
Qed.

Lemma status_queries_go_to_the_location_witness :
  exists key loc,
    AZURE_DI_KEY sample_config = Some key /\ accepts world_hello loc
    /\ poll_request "secret" "op-123" = poll_request key loc
    /\ url (poll_request "secret" "op-123") = loc
    /\ method (poll_request "secret" "op-123") = "GET"
    /\ req_body (poll_request "secret" "op-123") = None.
Proof.
  apply (status_queries_go_to_the_location sample_config sample_request world_hello
           (poll_request "secret" "op-123")).
  vm_compute. left. reflexivity.
Defined.

(** *** Time *)

(** X8: in every run the handler asks to wait 1500 ms before each status
    query and at no other time: the waiting adds up to 1500 ms times the
    number of status queries, and so to 180000 ms at most. *)
Theorem waits_1500_per_status_query cfg req w :
  slept (run cfg req w)
    = (1500 * Z.of_nat (length (status_queries (run cfg req w))))%Z
  /\ (0 <= slept (run cfg req w) <= 180000)%Z.
Proof.
  destruct (guards_cases cfg req) as [Hc|[[Hc Hb]|(ep & key & f & buf & Hready)]].
  - rewrite (run_not_configured cfg req w Hc). cbn. lia.
  - rewrite (run_no_buffer cfg req w Hc Hb). cbn. lia.
  - destruct (run_ready_shape cfg req w ep key f buf Hready)
      as (loc & m & reply & Hrun & _ & Hle & _).
    rewrite Hrun, slept_of_shape, queries_of_shape by reflexivity.
    rewrite repeat_length. unfold MAX_POLLS in Hle. lia.
Qed.

(** *** What the loop looks at *)

Lemma poll_loop_same_json key loc w w' :
  (forall i, same_json (poll_reply w i) (poll_reply w' i)) ->
  forall n i tr,
    length (fetches tr) = S i ->
    poll_loop key loc n w tr = poll_loop key loc n w' tr.
Proof.
  intros Hsame n. induction n as [|n IH]; intros i tr Hlen; [reflexivity|].
  rewrite (poll_loop_S key loc w n i tr Hlen), (poll_loop_S key loc w' n i tr Hlen).
  specialize (Hsame i). unfold same_json in Hsame.
  destruct (poll_reply w i) as [e|r]; destruct (poll_reply w' i) as [e'|r'];
    try contradiction.
  - subst. reflexivity.
  - rewrite Hsame. destruct (body_json r') as [e|data]; [reflexivity|].
    destruct (get_member data "status") as [e|status]; [reflexivity|].
    destruct (strict_eq_str status "succeeded"); [reflexivity|].
    destruct (strict_eq_str status "failed"); [reflexivity|].
    apply (IH (S i)). apply fetches_after_round. exact Hlen.
Qed.

(** X9: the loop looks at nothing of the answer to a status query but
    what [.json()] gives: two providers that answer the submission alike
    and whose answers to the status queries have the same parsed bodies,
    whatever their status lines and headers, get the same run.  A 4xx or
    5xx answer to a status query does not stop the loop by itself. *)
Theorem status_line_of_poll_is_ignored cfg req w w' :
  submit_reply w = submit_reply w' ->
  (forall i, same_json (poll_reply w i) (poll_reply w' i)) ->
  run cfg req w = run cfg req w'.
Proof.
  intros Hsub Hsame.
  destruct (guards_cases cfg req) as [Hc|[[Hc Hb]|(ep & key & f & buf & Hready)]].
  - rewrite !(run_not_configured cfg req _ Hc). reflexivity.
  - rewrite !(run_no_buffer cfg req _ Hc Hb). reflexivity.
  - rewrite (run_ready cfg req w ep key f buf Hready),
      (run_ready cfg req w' ep key f buf Hready).
    rewrite (submit_phase_eq w ep key f buf [] eq_refl),
      (submit_phase_eq w' ep key f buf [] eq_refl), <- Hsub.
    cbv zeta. destruct (submit_reply w) as [e|submitResp]; [reflexivity|].
    destruct (negb (Z.eqb (resp_status submitResp) 202)).
    { destruct (body_text submitResp); reflexivity. }
    destruct (headers_get (resp_headers submitResp) "operation-location") as [loc|];
      [|reflexivity].
    destruct (negb (truthy_str (Some loc))); [reflexivity|].
    rewrite (poll_loop_same_json key loc w w' Hsame MAX_POLLS 0
               ([] ++ [EvFetch (submit_request ep key f buf)]) eq_refl).
    reflexivity.
Qed.

Lemma status_line_of_poll_is_ignored_witness :
  run sample_config sample_request world_hello
  = run sample_config sample_request world_http_errors.
Proof.
  apply status_line_of_poll_is_ignored; [reflexivity|].
  intros i. unfold world_http_errors, world_hello, running_then, answer.
  cbn [poll_reply]. destruct (Nat.ltb i 2); reflexivity.
Defined.

(** *** Failures of the transport and of the parser *)

(** X10: when the [fetch] of the submission rejects, the handler sends
    nothing else: no wait, no status query, and the one response is the
    500 reply [Azure DI exception] whose details is the rendering of the
    thrown value. *)
Theorem submission_transport_failure cfg req w endpoint_var key f buf e :
  ready cfg req endpoint_var key f buf ->
  submit_reply w = inl e ->
  run cfg req w =
    [EvFetch (submit_request endpoint_var key f buf); EvSend (reply_exception e)]
  /\ status_queries (run cfg req w) = []
  /\ slept (run cfg req w) = 0%Z
  /\ lookup_field "details"
       [("error", JStr "Azure DI exception"); ("details", JStr e)] = Some (JStr e)
  /\ code (reply_exception e) = 500%Z
  /\ reply_field (reply_exception e) "error" = Some (JStr "Azure DI exception")
  /\ reply_field (reply_exception e) "details" = Some (JStr e).
Proof.
  intros Hready Hs.
  assert (Hrun : run cfg req w =
            [EvFetch (submit_request endpoint_var key f buf);
             EvSend (reply_exception e)]).
  { rewrite (run_ready cfg req w endpoint_var key f buf Hready),
      (submit_phase_eq w endpoint_var key f buf [] eq_refl), Hs. reflexivity. }
  rewrite Hrun. repeat split.
Qed.

Lemma submission_transport_failure_witness :
  responses (run sample_config sample_request world_unreachable)
  = [reply_exception "FetchError: getaddrinfo ENOTFOUND di.example"].
Proof.
  destruct (submission_transport_failure sample_config sample_request
              world_unreachable "https://di.example/" "secret" sample_file
              [Byte.x25; Byte.x50; Byte.x44; Byte.x46]
              "FetchError: getaddrinfo ENOTFOUND di.example") as (Hrun & _).
  - prove_ready.
  - reflexivity.
  - rewrite Hrun. reflexivity.
Defined.

(** X11: when the answer to a status query arrives but its body is not
    JSON, so that [.json()] rejects with [e], the handler stops at that
    query, whatever is left of the budget, and answers 500
    [Azure DI exception] with the rendering of [e]; it does not go on to
    the next query. *)
Theorem unparsable_status_answer_aborts
    cfg req w endpoint_var key f buf loc k pollResp e :
  ready cfg req endpoint_var key f buf ->
  accepts w loc ->
  k < MAX_POLLS ->
  running_before w k ->
  poll_reply w k = inr pollResp ->
  body_json pollResp = inl e ->
  run cfg req w =
    EvFetch (submit_request endpoint_var key f buf)
      :: poll_rounds key loc (S k) ++ [EvSend (reply_exception e)]
  /\ length (status_queries (run cfg req w)) = S k
  /\ responses (run cfg req w) = [reply_exception e].
Proof.
  intros Hready Hacc Hk Hpre Hreply Hbody.
  rewrite (run_thrown cfg req w endpoint_var key f buf loc Hready Hacc k Hk Hpre e).
  - split; [reflexivity|]. split.
    + rewrite queries_of_shape by reflexivity. apply repeat_length.
    + apply responses_of_shape.
  - right. left. exists pollResp. split; assumption.
Qed.

Lemma unparsable_status_answer_aborts_witness :
  length (status_queries (run sample_config sample_request world_garbled)) = 2
  /\ responses (run sample_config sample_request world_garbled)
     = [reply_exception "FetchError: invalid json response body"].
Proof.
  destruct (unparsable_status_answer_aborts sample_config sample_request
              world_garbled "https://di.example/" "secret" sample_file
              [Byte.x25; Byte.x50; Byte.x44; Byte.x46] "op-123" 1
              (mkResponse 502 [] (inr "<html>Bad Gateway</html>")
                 (inl "FetchError: invalid json response body"))
              "FetchError: invalid json response body") as (_ & Hq & Hr).
  - prove_ready.
  - prove_accepts.
  - unfold MAX_POLLS. lia.
  - prove_prefix.
  - reflexivity.
  - reflexivity.
  - split; assumption.
Defined.

(** ** The route [/debug/env] *)

Lemma not_missing_env_when_ready cfg req w endpoint_var key f buf :
  ready cfg req endpoint_var key f buf ->
  responses (run cfg req w) <> [reply_missing_env].
Proof.
  intros Hready.
  pose proof (ocr_runs_classified cfg req w endpoint_var key f buf Hready) as Hrun.
  remember (run cfg req w) as tr eqn:Htr.
  destruct Hrun; rewrite ?responses_of_shape; cbn [responses]; discriminate.
Qed.

(** X12: [/debug/env] tells what the OCR route will do with the
    environment the module was loaded with: it reports both
    [hasAzureKey] and [hasAzureEndpoint] as [true] exactly when no request
    to the OCR route is answered by [Missing Azure DI env vars], whatever
    the request and the provider.  A variable set to the empty string is
    reported as missing. *)
Theorem debug_env_predicts_ocr_guard env req w :
  (opt_member (Some (body (debug_env env))) "hasAzureKey" = Some (JBool true)
   /\ opt_member (Some (body (debug_env env))) "hasAzureEndpoint" = Some (JBool true))
  <-> responses (run (load_config env) req w) <> [reply_missing_env].
Proof.
  cbn [debug_env body opt_member lookup_field String.eqb Ascii.eqb Bool.eqb].
  destruct (guards_cases (load_config env) req)
    as [Hc|[[Hc Hb]|(ep & key & f & buf & Hready)]].
  - rewrite (run_not_configured _ req w Hc). split.
    + intros [Hk He]. injection Hk as Hk. injection He as He.
      unfold configured, load_config in Hc. cbn in Hc. rewrite Hk, He in Hc.
      discriminate.
    + intros H. contradiction H. reflexivity.
  - rewrite (run_no_buffer _ req w Hc Hb). split; [intros _; discriminate|].
    intros _. unfold configured, load_config in Hc. cbn in Hc.
    apply andb_prop in Hc. destruct Hc as [He Hk]. rewrite He, Hk. split; reflexivity.
  - split.
    + intros _. apply (not_missing_env_when_ready _ req w ep key f buf Hready).
    + intros _. destruct (ready_passes_guards _ _ _ _ _ _ Hready) as [Hc _].
      unfold configured, load_config in Hc. cbn in Hc.
      apply andb_prop in Hc. destruct Hc as [He Hk]. rewrite He, Hk. split; reflexivity.
Qed.

(** ** The route [/api/analyze] *)

Section AnalyzeFacts.

Import Analyze.

Variables (b : Builtins) (MEDICAL_PROMPT : string).
Variables (apiKey : option string) (reqBody : JSValue) (w : World).

(** The handler, read off the source: the nine ways it can go. *)
Lemma analyze_run_eq :
  Analyze.run b MEDICAL_PROMPT apiKey reqBody w =
    match destructure_text reqBody with
    | inl e => [LogError "Analysis error:" e; Send (reply_error e)]
    | inr text =>
        if negb (truthy text) then [Send reply_no_text]
        else
          match ToString_value b text with
          | inl e => [LogError "Analysis error:" e; Send (reply_error e)]
          | inr document =>
              if negb (truthy_str (Some (trim b document))) then [Send reply_no_text]
              else
                match apiKey with
                | None => [Send reply_no_key]
                | Some key =>
                    if negb (truthy_str (Some key)) then [Send reply_no_key]
                    else
                      let sent :=
                        [Log "Calling Claude API...";
                         Fetch (claude_request b MEDICAL_PROMPT key document)] in
                      match w with
                      | inl e =>
                          sent ++ [LogError "Analysis error:" e; Send (reply_error e)]
                      | inr claudeResponse =>
                          if negb (ok claudeResponse) then
                            match Analyze.text claudeResponse with
                            | inl e =>
                                sent ++ [LogError "Analysis error:" e;
                                         Send (reply_error e)]
                            | inr errorText =>
                                sent ++ [Send (reply_upstream (status claudeResponse)
                                                              errorText)]
                            end
                          else
                            match json claudeResponse with
                            | inl e =>
                                sent ++ [LogError "Analysis error:" e;
                                         Send (reply_error e)]
                            | inr claudeData =>
                                sent ++ [Log "Analysis complete";
                                         Send (reply_report (report_of claudeData))]
                            end
                      end
                end
          end
    end.
Proof.
  unfold Analyze.run, analyze_handler, Analyze.try_catch, analyze_body.
  unfold Analyze.bind at 1. unfold Analyze.lift at 1.
  destruct (destructure_text reqBody) as [e|text]; [reflexivity|].
  unfold Analyze.bind at 1. unfold no_text.
  destruct (negb (truthy text)); [reflexivity|].
  unfold Analyze.bind at 1. unfold Analyze.lift at 1.
  destruct (ToString_value b text) as [e|document]; [reflexivity|].
  cbn [Analyze.ret].
  destruct (negb (truthy_str (Some (trim b document)))); [reflexivity|].
  destruct apiKey as [key|]; [|reflexivity].
  destruct (negb (truthy_str (Some key))); [reflexivity|].
  unfold Analyze.bind at 1. unfold console_log at 1.
  unfold Analyze.bind at 1. unfold Analyze.lift at 1.
  unfold Analyze.bind at 1. unfold Analyze.fetch at 1.
  destruct w as [e|claudeResponse]; [reflexivity|].
  destruct (negb (ok claudeResponse)).
  { unfold Analyze.bind at 1. unfold Analyze.lift at 1.
    destruct (Analyze.text claudeResponse); reflexivity. }
  unfold Analyze.bind at 1. unfold Analyze.lift at 1.
  destruct (json claudeResponse) as [e|claudeData]; reflexivity.
Qed.

End AnalyzeFacts.

Section AnalyzeTheorems.

Import Analyze.

Lemma analyze_run_with_text b MEDICAL_PROMPT apiKey reqBody w document :
  has_text b reqBody document ->
  Analyze.run b MEDICAL_PROMPT apiKey reqBody w =
    match apiKey with
    | None => [Send reply_no_key]
    | Some key =>
        if negb (truthy_str (Some key)) then [Send reply_no_key]
        else
          let sent :=
            [Log "Calling Claude API...";
             Fetch (claude_request b MEDICAL_PROMPT key document)] in
          match w with
          | inl e => sent ++ [LogError "Analysis error:" e; Send (reply_error e)]
          | inr claudeResponse =>
              if negb (ok claudeResponse) then
                match Analyze.text claudeResponse with
                | inl e =>
                    sent ++ [LogError "Analysis error:" e; Send (reply_error e)]
                | inr errorText =>
                    sent ++ [Send (reply_upstream (status claudeResponse) errorText)]
                end
              else
                match json claudeResponse with
                | inl e =>
                    sent ++ [LogError "Analysis error:" e; Send (reply_error e)]
                | inr claudeData =>
                    sent ++ [Log "Analysis complete";
                             Send (reply_report (report_of claudeData))]
                end
          end
    end.
Proof.
  intros (text & Hd & Ht & Hs & Hne).
  rewrite analyze_run_eq, Hd, Ht, Hs. cbn [negb].
  unfold truthy_str at 1. destruct (String.eqb_spec (trim b document) "");
    [contradiction|reflexivity].
Qed.

Ltac prove_has_text :=
  eexists; split; [reflexivity|]; split; [reflexivity|];
  split; [reflexivity|discriminate].

(** X13: a request whose [text] is missing or falsy, or whose text has
    nothing left after [trim], is answered 400 [No text provided] and
    nothing else happens: no request to the model and no log line,
    whether or not the API key is set. *)
Theorem analyze_refuses_missing_text b MEDICAL_PROMPT apiKey reqBody w text :
  destructure_text reqBody = inr text ->
  truthy text = false
  \/ (exists document, ToString_value b text = inr document /\ trim b document = "") ->
  Analyze.run b MEDICAL_PROMPT apiKey reqBody w = [Send reply_no_text]
  /\ code reply_no_text = 400%Z.
Proof.
  intros Hd Hcase. split; [|reflexivity].
  rewrite analyze_run_eq, Hd.
  destruct Hcase as [Hf|(document & Hs & Hblank)].
  - rewrite Hf. reflexivity.
  - destruct (negb (truthy text)); [reflexivity|].
    rewrite Hs, Hblank. reflexivity.
Qed.

Lemma analyze_refuses_missing_text_witness :
  Analyze.run sample_builtins sample_prompt None
    (Some (JObj [("text", JStr " ")])) claude_unreachable
  = [Send reply_no_text].
Proof.
  refine (proj1 (analyze_refuses_missing_text sample_builtins sample_prompt None
                   (Some (JObj [("text", JStr " ")])) claude_unreachable
                   (Some (JStr " ")) eq_refl _)).
  right. exists " ". split; reflexivity.
Defined.

(** X14: a request with a text is answered 400 [No API key provided] when
    [ANTHROPIC_API_KEY] is not set or is empty, and no request is sent to
    the model. *)
Theorem analyze_without_key_sends_nothing
    b MEDICAL_PROMPT apiKey reqBody w document :
  has_text b reqBody document ->
  truthy_str apiKey = false ->
  Analyze.run b MEDICAL_PROMPT apiKey reqBody w = [Send reply_no_key]
  /\ Analyze.fetches (Analyze.run b MEDICAL_PROMPT apiKey reqBody w) = []
  /\ code reply_no_key = 400%Z.
Proof.
  intros Htext Hkey.
  rewrite (analyze_run_with_text b MEDICAL_PROMPT apiKey reqBody w document Htext).
  destruct apiKey as [key|]; [|repeat split].
  rewrite Hkey. repeat split.
Qed.

Lemma analyze_without_key_sends_nothing_witness :
  Analyze.run sample_builtins sample_prompt (Some "") sample_body (claude_says (JStr "R"))
  = [Send reply_no_key].
Proof.
  refine (proj1 (analyze_without_key_sends_nothing sample_builtins sample_prompt
                   (Some "") sample_body (claude_says (JStr "R")) "TSH 2.1" _ eq_refl)).
  prove_has_text.
Defined.

(** X15: when the model answers with a status outside 200-299, the body
    is not parsed.  When its text can be read, the handler answers 500
    [Failed to analyze document] with the details
    [Claude API error: <status> - <body text>]; when reading it fails, the
    error is logged and the handler answers 500
    [Failed to analyze document] with the details of that error. *)
Theorem analyze_relays_upstream_error
    b MEDICAL_PROMPT key reqBody claudeResponse document :
  has_text b reqBody document ->
  key <> "" ->
  ok claudeResponse = false ->
  (forall errorText,
      Analyze.text claudeResponse = inr errorText ->
      Analyze.run b MEDICAL_PROMPT (Some key) reqBody (inr claudeResponse) =
        [Log "Calling Claude API...";
         Fetch (claude_request b MEDICAL_PROMPT key document);
         Send (reply_upstream (status claudeResponse) errorText)]
      /\ code (reply_upstream (status claudeResponse) errorText) = 500%Z
      /\ reply_field (reply_upstream (status claudeResponse) errorText) "error"
         = Some (JStr "Failed to analyze document")
      /\ reply_field (reply_upstream (status claudeResponse) errorText) "details"
         = Some (JStr ("Claude API error: "
                       ++ Number_toString (status claudeResponse)
                       ++ " - " ++ errorText)%string))
  /\ (forall e,
        Analyze.text claudeResponse = inl e ->
        Analyze.run b MEDICAL_PROMPT (Some key) reqBody (inr claudeResponse) =
          [Log "Calling Claude API...";
           Fetch (claude_request b MEDICAL_PROMPT key document);
           LogError "Analysis error:" e;
           Send (reply_error e)]
        /\ code (reply_error e) = 500%Z
        /\ reply_field (reply_error e) "details" = Some (JStr (error_details e))).
Proof.
  intros Htext Hkey Hok.
  rewrite (analyze_run_with_text b MEDICAL_PROMPT (Some key) reqBody _ document Htext).
  rewrite (truthy_str_Some _ Hkey), Hok. cbn [negb]. split.
  - intros errorText Ht. rewrite Ht. repeat split.
  - intros e Ht. rewrite Ht. repeat split.
Qed.

Lemma analyze_relays_upstream_error_witness :
  Analyze.responses
    (Analyze.run sample_builtins sample_prompt (Some "sk-1") sample_body
       claude_overloaded)
  = [mkReply 500
       (JObj [("error", JStr "Failed to analyze document");
              ("details", JStr "Claude API error: 529 - overloaded_error")])]
  /\ Analyze.responses
       (Analyze.run sample_builtins sample_prompt (Some "sk-1") sample_body
          claude_cut_off)
     = [mkReply 500
          (JObj [("error", JStr "Failed to analyze document");
                 ("details", JStr "Premature close")])].
Proof.
  split.
  - destruct (analyze_relays_upstream_error sample_builtins sample_prompt "sk-1"
                sample_body
                (mkResponse 529 (inr "overloaded_error")
                   (inl (mkThrown "invalid json" "FetchError: invalid json")))
                "TSH 2.1") as [Hread _].
    + prove_has_text.
    + discriminate.
    + reflexivity.
    + destruct (Hread "overloaded_error" eq_refl) as [Hrun _].
      unfold claude_overloaded. rewrite Hrun. reflexivity.
  - destruct (analyze_relays_upstream_error sample_builtins sample_prompt "sk-1"
                sample_body
                (mkResponse 502
                   (inl (mkThrown "Premature close" "FetchError: Premature close"))
                   (inl (mkThrown "Premature close" "FetchError: Premature close")))
                "TSH 2.1") as [_ Hcut].
    + prove_has_text.
    + discriminate.
    + reflexivity.
    + destruct (Hcut (mkThrown "Premature close" "FetchError: Premature close")
                  eq_refl) as [Hrun _].
      unfold claude_cut_off. rewrite Hrun. reflexivity.
Defined.

(** X16: when the model answers with a status in 200-299 and a JSON body,
    the handler answers 200 with [success: true] and a report that is the
    [text] of the first item of [content], whatever that value is unless
    it is [null]; the items after the first are not looked at; and the
    report is the empty string when there is no [content], no first item
    or no [text] in it. *)
Theorem analyze_reports_first_text
    b MEDICAL_PROMPT key reqBody claudeResponse claudeData document :
  has_text b reqBody document ->
  key <> "" ->
  ok claudeResponse = true ->
  json claudeResponse = inr claudeData ->
  Analyze.run b MEDICAL_PROMPT (Some key) reqBody (inr claudeResponse) =
    [Log "Calling Claude API...";
     Fetch (claude_request b MEDICAL_PROMPT key document);
     Log "Analysis complete";
     Send (reply_report (report_of claudeData))]
  /\ (forall fields rest t,
        opt_member (Some claudeData) "content" = Some (JArr (JObj fields :: rest)) ->
        lookup_field "text" fields = Some t -> t <> JNull ->
        report_of claudeData = t)
  /\ (forall fields rest,
        opt_member (Some claudeData) "content" = Some (JArr (JObj fields :: rest)) ->
        lookup_field "text" fields = None ->
        report_of claudeData = JStr "")
  /\ (opt_member (Some claudeData) "content" = undefined
      \/ opt_member (Some claudeData) "content" = Some (JArr []) ->
      report_of claudeData = JStr "").
Proof.
  intros Htext Hkey Hok Hjson.
  rewrite (analyze_run_with_text b MEDICAL_PROMPT (Some key) reqBody _ document Htext).
  rewrite (truthy_str_Some _ Hkey), Hok, Hjson.
  split; [reflexivity|]. unfold report_of. split; [|split].
  - intros fields rest t Hc Ht Hnn. rewrite Hc. cbn [opt_index0 opt_member].
    rewrite Ht. destruct t; try reflexivity. contradiction.
  - intros fields rest Hc Ht. rewrite Hc. cbn [opt_index0 opt_member].
    rewrite Ht. reflexivity.
  - intros [Hc|Hc]; rewrite Hc; reflexivity.
Qed.

Lemma analyze_reports_first_text_witness :
  Analyze.responses
    (Analyze.run sample_builtins sample_prompt (Some "sk-1") sample_body
       (claude_says (JStr "")))
  = [reply_report (JStr "")]
  /\ Analyze.responses
       (Analyze.run sample_builtins sample_prompt (Some "sk-1") sample_body
          (claude_says (JStr "FIRST VISIT NOTE")))
     = [reply_report (JStr "FIRST VISIT NOTE")].
Proof.
  split.
  - destruct (analyze_reports_first_text sample_builtins sample_prompt "sk-1"
                sample_body
                (mkResponse 200 (inr "")
                   (inr (JObj [("content",
                                JArr [JObj [("type", JStr "text"); ("text", JStr "")];
                                      JObj [("type", JStr "text");
                                            ("text", JStr "more")]])])))
                (JObj [("content",
                        JArr [JObj [("type", JStr "text"); ("text", JStr "")];
                              JObj [("type", JStr "text"); ("text", JStr "more")]])])
                "TSH 2.1") as [Hrun _].
    + prove_has_text.
    + discriminate.
    + reflexivity.
    + reflexivity.
    + unfold claude_says. rewrite Hrun. reflexivity.
  - destruct (analyze_reports_first_text sample_builtins sample_prompt "sk-1"
                sample_body
                (mkResponse 200 (inr "")
                   (inr (JObj [("content",
                                JArr [JObj [("type", JStr "text");
                                            ("text", JStr "FIRST VISIT NOTE")];
                                      JObj [("type", JStr "text");
                                            ("text", JStr "more")]])])))
                (JObj [("content",
                        JArr [JObj [("type", JStr "text");
                                    ("text", JStr "FIRST VISIT NOTE")];
                              JObj [("type", JStr "text"); ("text", JStr "more")]])])
                "TSH 2.1") as [Hrun _].
    + prove_has_text.
    + discriminate.
    + reflexivity.
    + reflexivity.
    + unfold claude_says. rewrite Hrun. reflexivity.
Defined.

(** X17: when the [fetch] rejects, or the answer has a status in 200-299
    and a body that is not JSON, the thrown value is logged and the
    handler answers 500 [Failed to analyze document]; the details are the
    message of the thrown value, and its rendering when the message is
    empty. *)
Theorem analyze_failure_is_500 b MEDICAL_PROMPT key reqBody w document e :
  has_text b reqBody document ->
  key <> "" ->
  w = inl e
  \/ (exists claudeResponse,
        w = inr claudeResponse /\ ok claudeResponse = true
        /\ json claudeResponse = inl e) ->
  Analyze.run b MEDICAL_PROMPT (Some key) reqBody w =
    [Log "Calling Claude API...";
     Fetch (claude_request b MEDICAL_PROMPT key document);
     LogError "Analysis error:" e;
     Send (reply_error e)]
  /\ code (reply_error e) = 500%Z
  /\ (message e <> "" -> error_details e = message e)
  /\ (message e = "" -> error_details e = rendering e).
Proof.
  intros Htext Hkey Hcase.
  rewrite (analyze_run_with_text b MEDICAL_PROMPT (Some key) reqBody _ document Htext).
  rewrite (truthy_str_Some _ Hkey). cbn [negb]. split; [|split; [reflexivity|]].
  - destruct Hcase as [->|(claudeResponse & -> & Hok & Hjson)].
    + reflexivity.
    + rewrite Hok, Hjson. reflexivity.
  - unfold error_details. split.
    + intros Hm. rewrite (truthy_str_Some _ Hm). reflexivity.
    + intros ->. reflexivity.
Qed.

Lemma analyze_failure_is_500_witness :
  Analyze.responses
    (Analyze.run sample_builtins sample_prompt (Some "sk-1") sample_body
       claude_unreachable)
  = [mkReply 500
       (JObj [("error", JStr "Failed to analyze document");
              ("details",
               JStr "request to https://api.anthropic.com/v1/messages failed")])].
Proof.
  destruct (analyze_failure_is_500 sample_builtins sample_prompt "sk-1" sample_body
              claude_unreachable "TSH 2.1"
              (mkThrown "request to https://api.anthropic.com/v1/messages failed"
                 "FetchError: request to https://api.anthropic.com/v1/messages failed"))
    as [Hrun _].
  - prove_has_text.
  - discriminate.
  - left. reflexivity.
  - rewrite Hrun. reflexivity.
Defined.

(** X18: a request whose body is [undefined] or [null] makes the
    destructuring of line 117 throw: the handler answers 500, not 400,
    and sends no request to the model, whether or not the key is set. *)
Theorem analyze_without_body_is_500 b MEDICAL_PROMPT apiKey reqBody w :
  reqBody = undefined \/ reqBody = Some JNull ->
  exists e,
    destructure_text reqBody = inl e
    /\ Analyze.run b MEDICAL_PROMPT apiKey reqBody w =
         [LogError "Analysis error:" e; Send (reply_error e)]
    /\ code (reply_error e) = 500%Z
    /\ Analyze.fetches (Analyze.run b MEDICAL_PROMPT apiKey reqBody w) = [].
Proof.
  intros [-> | ->]; rewrite analyze_run_eq; cbn [destructure_text];
    eexists; repeat split.
Qed.

Lemma analyze_without_body_is_500_witness :
  exists e,
    destructure_text undefined = inl e
    /\ Analyze.run sample_builtins sample_prompt (Some "sk-1") undefined
         claude_unreachable
       = [LogError "Analysis error:" e; Send (reply_error e)]
    /\ code (reply_error e) = 500%Z
    /\ Analyze.fetches
         (Analyze.run sample_builtins sample_prompt (Some "sk-1") undefined
            claude_unreachable) = [].
Proof.
  apply (analyze_without_body_is_500 sample_builtins sample_prompt (Some "sk-1")
           undefined claude_unreachable).
  left. reflexivity.
Defined.

(** X19: every invocation of the route ends with exactly one response,
    which is its last event, and sends at most one request; a request is
    sent only when the key is set and the text passes the test, and it is
    the POST to [https://api.anthropic.com/v1/messages] that carries the
    key in [x-api-key] and the string of the text at the end of the
    prompt. *)
Theorem analyze_one_response_one_request b MEDICAL_PROMPT apiKey reqBody w :
  exists (before : Analyze.Trace) (reply : HttpReply),
    Analyze.run b MEDICAL_PROMPT apiKey reqBody w = before ++ [Send reply]
    /\ Analyze.responses (Analyze.run b MEDICAL_PROMPT apiKey reqBody w) = [reply]
    /\ (Analyze.fetches (Analyze.run b MEDICAL_PROMPT apiKey reqBody w) = []
        \/ exists key document,
             apiKey = Some key /\ key <> ""
             /\ has_text b reqBody document
             /\ Analyze.fetches (Analyze.run b MEDICAL_PROMPT apiKey reqBody w)
                = [claude_request b MEDICAL_PROMPT key document]
             /\ url (claude_request b MEDICAL_PROMPT key document)
                = "https://api.anthropic.com/v1/messages"
             /\ headers_get (headers (claude_request b MEDICAL_PROMPT key document))
                  "x-api-key" = Some key).
Proof.
  rewrite analyze_run_eq.
  destruct (destructure_text reqBody) as [e|text] eqn:Hd.
  { exists [LogError "Analysis error:" e], (reply_error e). repeat split. now left. }
  destruct (truthy text) eqn:Ht; cbn [negb].
  2:{ exists [], reply_no_text. repeat split. now left. }
  destruct (ToString_value b text) as [e|document] eqn:Hs.
  { exists [LogError "Analysis error:" e], (reply_error e). repeat split. now left. }
  unfold truthy_str.
  destruct (String.eqb_spec (trim b document) "") as [Hblank|Hne]; cbn [negb].
  { exists [], reply_no_text. repeat split. now left. }
  destruct apiKey as [key|].
  2:{ exists [], reply_no_key. repeat split. now left. }
  destruct (String.eqb_spec key "") as [Hk|Hk]; cbn [negb].
  { exists [], reply_no_key. repeat split. now left. }
  assert (Htext : has_text b reqBody document).
  { exists text. repeat split; assumption. }
  cbv zeta.
  destruct w as [e|claudeResponse].
  { eexists [_; _; _], _. split; [reflexivity|]. split; [reflexivity|].
    right. exists key, document. repeat split; assumption. }
  destruct (negb (ok claudeResponse)).
  { destruct (Analyze.text claudeResponse) as [e|errorText].
    - eexists [_; _; _], _. split; [reflexivity|]. split; [reflexivity|].
      right. exists key, document. repeat split; assumption.
    - eexists [_; _], _. split; [reflexivity|]. split; [reflexivity|].
      right. exists key, document. repeat split; assumption. }
  destruct (json claudeResponse) as [e|claudeData].
  { eexists [_; _; _], _. split; [reflexivity|]. split; [reflexivity|].
    right. exists key, document. repeat split; assumption. }
  eexists [_; _; _], _. split; [reflexivity|]. split; [reflexivity|].
  right. exists key, document. repeat split; assumption.
Qed.

End AnalyzeTheorems.
